(** * ESP-React-Control: the dashboard's registry, channel and toggles

    A shallow embedding of the TypeScript sources

    - [src/types/types.ts]              (the [EspDevice] record),
    - [src/api/api.ts]                  ([publishMQTTMessage]),
    - [src/hooks/useWebSocket.ts]       (the reconnecting channel),
    - [src/components/DeviceControls.tsx] (the optimistic toggles),
    - [src/components/MqttMessageInput.tsx], latest revision
      ([SmartHomeDashboard]: the delete dialogue),

    followed by the properties of the written specification, each stated
    against these definitions.

    TypeScript types are erased at run time and inbound frames are decoded
    with [JSON.parse] without any validation, so the fields of a device
    record hold whatever JavaScript value the wire delivered.  Records are
    therefore modelled with [JsValue] fields, and the operators the source
    applies to them (truthiness, [!], [||], [===], template strings) are
    modelled on [JsValue]. *)

From Stdlib Require Import ZArith DecimalString.
From stdpp Require Import gmap strings list.

Open Scope string_scope.
Open Scope list_scope.

(** ** JavaScript values *)

(** The scalar values a JSON document can put in a field, plus [undefined]
    (what reading an absent property yields).  A number is an integer
    literal; nested arrays and objects never occur in the five fields the
    relay sends and are left out of the model. *)
Inductive JsValue : Type :=
| JsUndefined
| JsNull
| JsBool (b : bool)
| JsNumber (n : Z)
| JsString (s : string).

#[global] Instance JsValue_eq_dec : EqDecision JsValue.
Proof. solve_decision. Defined.

(** [ToBoolean]: the test performed by [c ? a : b], [!v], [a || b], [if (v)]
    and [a && b]. *)
Definition truthy (v : JsValue) : bool :=
  match v with
  | JsUndefined | JsNull => false
  | JsBool b => b
  | JsNumber n => negb (n =? 0)%Z
  | JsString s => negb (String.eqb s "")
  end.

(** [!v] *)
Definition js_not (v : JsValue) : JsValue := JsBool (negb (truthy v)).

(** [a || b] *)
Definition js_or (a b : JsValue) : JsValue := if truthy a then a else b.

(** [a === b] on scalars. *)
Definition strict_eq (a b : JsValue) : bool :=
  match a, b with
  | JsUndefined, JsUndefined => true
  | JsNull, JsNull => true
  | JsBool x, JsBool y => Bool.eqb x y
  | JsNumber x, JsNumber y => (x =? y)%Z
  | JsString x, JsString y => String.eqb x y
  | _, _ => false
  end.

(** [ToString], as applied by a template literal [`${v}`].  An integer is
    rendered in plain decimal, as JavaScript does below 10^21. *)
Definition ToString (v : JsValue) : string :=
  match v with
  | JsUndefined => "undefined"
  | JsNull => "null"
  | JsBool true => "true"
  | JsBool false => "false"
  | JsNumber n => NilZero.string_of_int (Z.to_int n)
  | JsString s => s
  end.

(** A decoded JSON object: property name to value.  Reading a property that
    is absent yields [undefined]. *)
Definition prop (data : gmap string JsValue) (key : string) : JsValue :=
  default JsUndefined (data !! key).

(** What [JSON.parse(event.data)] hands to the message handler, as far as
    the handler can observe it: the call throws, or returns [null] (on which
    any property read throws), or returns a value whose properties can be
    read.  A top-level number, string, boolean or array has none of the
    properties the handler reads and so behaves as the empty object. *)
Inductive Parsed : Type :=
| SyntaxError
| ParsedNull
| ParsedObject (data : gmap string JsValue).

(** ** [src/types/types.ts] *)

Record EspDevice : Type := {
  deviceId : JsValue;
  name : JsValue;
  lightOn : JsValue;
  rgbMode : JsValue;        (* optional: [JsUndefined] when absent *)
  commandTopic : JsValue
}.

#[global] Instance EspDevice_eq_dec : EqDecision EspDevice.
Proof. solve_decision. Defined.

(** [{ ...d, lightOn: v }] *)
Definition set_lightOn (v : JsValue) (d : EspDevice) : EspDevice :=
  {| deviceId := deviceId d; name := name d; lightOn := v;
     rgbMode := rgbMode d; commandTopic := commandTopic d |}.

(** [{ ...d, rgbMode: v }] *)
Definition set_rgbMode (v : JsValue) (d : EspDevice) : EspDevice :=
  {| deviceId := deviceId d; name := name d; lightOn := lightOn d;
     rgbMode := v; commandTopic := commandTopic d |}.

(** The [deviceId]s of a registry, in order. *)
Definition ids (devs : list EspDevice) : list JsValue := List.map deviceId devs.

(** ** Browser objects and React state *)

(** [WebSocket.readyState] *)
Inductive ReadyState : Type := CONNECTING | OPEN | CLOSING | CLOSED.

#[global] Instance ReadyState_eq_dec : EqDecision ReadyState.
Proof. solve_decision. Defined.

(** The state variables a closure created during one render of
    [useWebSocket] sees: [const [isConnected, ...] = useState(...)] binds
    them once per render, and a handler keeps the bindings of the render
    that created it. *)
Record Render : Type := {
  seen_isConnected : bool;
  seen_reconnectAttempts : nat
}.

(** One [WebSocket] object: its ready state, the objects whose JSON text was
    passed to [send], and the render whose [connectWebSocket] created it
    (its four handlers are closures of that render). *)
Record WebSocket : Type := {
  readyState : ReadyState;
  sent : list (gmap string JsValue);
  scope : Render
}.

Definition set_readyState (r : ReadyState) (ws : WebSocket) : WebSocket :=
  {| readyState := r; sent := sent ws; scope := scope ws |}.

Definition push_sent (frame : gmap string JsValue) (ws : WebSocket) : WebSocket :=
  {| readyState := readyState ws; sent := sent ws ++ [frame]; scope := scope ws |}.

(** The state of the mounted [SmartHomeDashboard].

    - [devices], [errorMessage], [deviceToDelete]: its three [useState]
      cells ([errorMessage] is the one rendered in the alert box and handed
      to [DeviceControls]);
    - [isConnected], [reconnectAttempts], [wsErrorMessage], [wsRef]: the
      cells of [useWebSocket] ([wsErrorMessage] is the hook's own
      [errorMessage]; [wsRef] indexes [sockets]);
    - [sockets]: every [WebSocket] constructed so far, oldest first;
    - [timers]: pending [setTimeout(..., 5000)] callbacks, oldest first, each
      with the render whose bindings it closes over;
    - [published]: the calls made to [publishMQTTMessage], in order;
    - [notifications]: the strings passed to the dashboard's
      [setErrorMessage], in order. *)
Record State : Type := {
  devices : list EspDevice;
  errorMessage : option string;
  deviceToDelete : JsValue;
  isConnected : bool;
  reconnectAttempts : nat;
  wsErrorMessage : option string;
  wsRef : option nat;
  sockets : list WebSocket;
  timers : list Render;
  published : list (string * JsValue);
  notifications : list string
}.

Definition initial : State :=
  {| devices := []; errorMessage := None; deviceToDelete := JsNull;
     isConnected := false; reconnectAttempts := 0; wsErrorMessage := None;
     wsRef := None; sockets := []; timers := [];
     published := []; notifications := [] |}.

Definition setDevices (f : list EspDevice -> list EspDevice) (st : State) : State :=
  {| devices := f (devices st); errorMessage := errorMessage st;
     deviceToDelete := deviceToDelete st; isConnected := isConnected st;
     reconnectAttempts := reconnectAttempts st;
     wsErrorMessage := wsErrorMessage st; wsRef := wsRef st;
     sockets := sockets st; timers := timers st;
     published := published st; notifications := notifications st |}.

(** The dashboard's [setErrorMessage]; a non-null message is a notification. *)
Definition setErrorMessage (m : option string) (st : State) : State :=
  {| devices := devices st; errorMessage := m;
     deviceToDelete := deviceToDelete st; isConnected := isConnected st;
     reconnectAttempts := reconnectAttempts st;
     wsErrorMessage := wsErrorMessage st; wsRef := wsRef st;
     sockets := sockets st; timers := timers st;
     published := published st;
     notifications := notifications st ++ from_option (fun s => [s]) [] m |}.

Definition setDeviceToDelete (v : JsValue) (st : State) : State :=
  {| devices := devices st; errorMessage := errorMessage st;
     deviceToDelete := v; isConnected := isConnected st;
     reconnectAttempts := reconnectAttempts st;
     wsErrorMessage := wsErrorMessage st; wsRef := wsRef st;
     sockets := sockets st; timers := timers st;
     published := published st; notifications := notifications st |}.

Definition setIsConnected (b : bool) (st : State) : State :=
  {| devices := devices st; errorMessage := errorMessage st;
     deviceToDelete := deviceToDelete st; isConnected := b;
     reconnectAttempts := reconnectAttempts st;
     wsErrorMessage := wsErrorMessage st; wsRef := wsRef st;
     sockets := sockets st; timers := timers st;
     published := published st; notifications := notifications st |}.

Definition setReconnectAttempts (f : nat -> nat) (st : State) : State :=
  {| devices := devices st; errorMessage := errorMessage st;
     deviceToDelete := deviceToDelete st; isConnected := isConnected st;
     reconnectAttempts := f (reconnectAttempts st);
     wsErrorMessage := wsErrorMessage st; wsRef := wsRef st;
     sockets := sockets st; timers := timers st;
     published := published st; notifications := notifications st |}.

(** The hook's own [setErrorMessage]. *)
Definition setWsErrorMessage (m : option string) (st : State) : State :=
  {| devices := devices st; errorMessage := errorMessage st;
     deviceToDelete := deviceToDelete st; isConnected := isConnected st;
     reconnectAttempts := reconnectAttempts st;
     wsErrorMessage := m; wsRef := wsRef st;
     sockets := sockets st; timers := timers st;
     published := published st; notifications := notifications st |}.

Definition set_wsRef (r : option nat) (st : State) : State :=
  {| devices := devices st; errorMessage := errorMessage st;
     deviceToDelete := deviceToDelete st; isConnected := isConnected st;
     reconnectAttempts := reconnectAttempts st;
     wsErrorMessage := wsErrorMessage st; wsRef := r;
     sockets := sockets st; timers := timers st;
     published := published st; notifications := notifications st |}.

Definition set_sockets (l : list WebSocket) (st : State) : State :=
  {| devices := devices st; errorMessage := errorMessage st;
     deviceToDelete := deviceToDelete st; isConnected := isConnected st;
     reconnectAttempts := reconnectAttempts st;
     wsErrorMessage := wsErrorMessage st; wsRef := wsRef st;
     sockets := l; timers := timers st;
     published := published st; notifications := notifications st |}.

Definition set_timers (l : list Render) (st : State) : State :=
  {| devices := devices st; errorMessage := errorMessage st;
     deviceToDelete := deviceToDelete st; isConnected := isConnected st;
     reconnectAttempts := reconnectAttempts st;
     wsErrorMessage := wsErrorMessage st; wsRef := wsRef st;
     sockets := sockets st; timers := l;
     published := published st; notifications := notifications st |}.

Definition set_published (l : list (string * JsValue)) (st : State) : State :=
  {| devices := devices st; errorMessage := errorMessage st;
     deviceToDelete := deviceToDelete st; isConnected := isConnected st;
     reconnectAttempts := reconnectAttempts st;
     wsErrorMessage := wsErrorMessage st; wsRef := wsRef st;
     sockets := sockets st; timers := timers st;
     published := l; notifications := notifications st |}.

(** ** [src/hooks/useWebSocket.ts] *)

Definition MAX_RECONNECT_ATTEMPTS : nat := 5.

(** The bindings of the first render: the initial values given to
    [useState].  [useEffect(..., [])] runs its body once, after that render,
    so the [connectWebSocket] it calls is the first render's. *)
Definition first_render : Render :=
  {| seen_isConnected := false; seen_reconnectAttempts := 0 |}.

(** [new WebSocket(url)] followed by [wsRef.current = websocket], inside the
    [connectWebSocket] of render [r]. *)
Definition new_WebSocket (r : Render) (st : State) : State :=
  set_wsRef (Some (length (sockets st)))
    (set_sockets
       (sockets st ++ [ {| readyState := CONNECTING; sent := []; scope := r |} ])
       st).

(** [connectWebSocket], as defined during render [r]: the guard reads that
    render's [reconnectAttempts]. *)
Definition connectWebSocket (r : Render) (st : State) : State :=
  if (MAX_RECONNECT_ATTEMPTS <=? seen_reconnectAttempts r)%nat
  then setWsErrorMessage (Some "Maximum reconnection attempts reached") st
  else new_WebSocket r st.

(** [websocket.onopen] *)
Definition onopen (st : State) : State :=
  setWsErrorMessage None (setReconnectAttempts (fun _ => 0) (setIsConnected true st)).

(** The updater passed to [setDevices] for a frame of type "delete":
    [prevDevices.filter((device) => device.deviceId !== data.deviceId)]. *)
Definition onmessage_delete (data : gmap string JsValue)
    (prevDevices : list EspDevice) : list EspDevice :=
  List.filter
    (fun device => negb (strict_eq (deviceId device) (prop data "deviceId")))
    prevDevices.

(** The updater passed to [setDevices] for any other frame (device update
    or addition). *)
Definition onmessage_upsert (data : gmap string JsValue)
    (prevDevices : list EspDevice) : list EspDevice :=
  let deviceId' := prop data "deviceId" in
  let lightOn' := prop data "lightOn" in
  let rgbmode := prop data "rgbmode" in
  let commandTopic' := prop data "commandTopic" in
  let deviceExists :=
    existsb (fun d => strict_eq (deviceId d) deviceId') prevDevices in
  if deviceExists
  then List.map
         (fun device =>
            if strict_eq (deviceId device) deviceId'
            then set_rgbMode rgbmode (set_lightOn lightOn' device)
            else device)
         prevDevices
  else prevDevices ++
       [ {| deviceId := deviceId';
            name := js_or (prop data "name")
                      (JsString ("ESP_" +:+ ToString deviceId'));
            lightOn := lightOn';
            rgbMode := rgbmode;
            commandTopic := commandTopic' |} ].

(** [websocket.onmessage].  The [try] block throws when [JSON.parse] throws
    and when [data] is [null] (reading [data.type]); the [catch] block sets
    the hook's error message. *)
Definition onmessage (parsed : Parsed) (st : State) : State :=
  match parsed with
  | SyntaxError | ParsedNull =>
      setWsErrorMessage (Some "Error processing WebSocket message") st
  | ParsedObject data =>
      if strict_eq (prop data "type") (JsString "heartbeat") then st
      else if strict_eq (prop data "type") (JsString "delete")
      then setDevices (onmessage_delete data) st
      else setDevices (onmessage_upsert data) st
  end.

(** [websocket.onerror] *)
Definition onerror (st : State) : State :=
  setWsErrorMessage (Some "WebSocket connection failed") (setIsConnected false st).

(** [websocket.onclose], a closure of render [r]: schedules the reconnect
    callback, which closes over the same render. *)
Definition onclose (r : Render) (st : State) : State :=
  let st := setIsConnected false st in
  set_timers (timers st ++ [r]) st.

(** The callback given to [setTimeout] in [onclose]: [isConnected],
    [reconnectAttempts] and [connectWebSocket] are the ones of render [r]. *)
Definition reconnect (r : Render) (st : State) : State :=
  if negb (seen_isConnected r)
     && (seen_reconnectAttempts r <? MAX_RECONNECT_ATTEMPTS)%nat
  then connectWebSocket r (setReconnectAttempts (fun prev => prev + 1) st)
  else st.

(** [wsRef.current], when it is set. *)
Definition current_socket (st : State) : option WebSocket :=
  i ← wsRef st; sockets st !! i.

(** [wsRef.current?.readyState === WebSocket.OPEN] *)
Definition channel_open (st : State) : bool :=
  match current_socket st with
  | Some ws => bool_decide (readyState ws = OPEN)
  | None => false
  end.

(** The object [{ type: "delete", deviceId }] given to [JSON.stringify]. *)
Definition delete_frame (deviceId : JsValue) : gmap string JsValue :=
  {[ "type" := JsString "delete"; "deviceId" := deviceId ]}.

(** [wsRef.current.send(text)] *)
Definition send (frame : gmap string JsValue) (st : State) : State :=
  match wsRef st with
  | Some i =>
      match sockets st !! i with
      | Some ws => set_sockets (<[i := push_sent frame ws]> (sockets st)) st
      | None => st
      end
  | None => st
  end.

(** [deleteDevice] *)
Definition deleteDevice (deviceId : JsValue) (st : State) : State :=
  if channel_open st
  then send (delete_frame deviceId) st
  else setWsErrorMessage (Some "WebSocket is not connected") st.

(** The cleanup returned by the effect: [close()] moves an open socket to
    [CLOSING]. *)
Definition cleanup (st : State) : State :=
  if channel_open st
  then match wsRef st with
       | Some i =>
           match sockets st !! i with
           | Some ws => set_sockets (<[i := set_readyState CLOSING ws]> (sockets st)) st
           | None => st
           end
       | None => st
       end
  else st.

(** What can happen to the mounted hook: the effect runs, the browser
    delivers an event of socket [i], the oldest pending timer fires, or the
    component unmounts.  The browser updates [readyState] before it calls
    [onopen] and [onclose]. *)
Inductive Event : Type :=
| Mount
| Unmount
| SocketOpen (i : nat)
| SocketMessage (i : nat) (parsed : Parsed)
| SocketError (i : nat)
| SocketClose (i : nat)
| TimerFires.

Definition step (st : State) (e : Event) : State :=
  match e with
  | Mount => connectWebSocket first_render st
  | Unmount => cleanup st
  | SocketOpen i =>
      match sockets st !! i with
      | Some ws => onopen (set_sockets (<[i := set_readyState OPEN ws]> (sockets st)) st)
      | None => st
      end
  | SocketMessage i parsed =>
      match sockets st !! i with
      | Some _ => onmessage parsed st
      | None => st
      end
  | SocketError i =>
      match sockets st !! i with
      | Some _ => onerror st
      | None => st
      end
  | SocketClose i =>
      match sockets st !! i with
      | Some ws =>
          onclose (scope ws)
            (set_sockets (<[i := set_readyState CLOSED ws]> (sockets st)) st)
      | None => st
      end
  | TimerFires =>
      match timers st with
      | r :: rest => reconnect r (set_timers rest st)
      | [] => st
      end
  end.

Definition run (st : State) (es : list Event) : State := fold_left step es st.

(** [n] closures in a row, none preceded by an open: socket [i], then
    [i + 1], ... closes while still connecting, and each time the 5000 ms
    timer fires afterwards. *)
Fixpoint closures (i n : nat) : list Event :=
  match n with
  | 0 => []
  | S n' => SocketClose i :: TimerFires :: closures (S i) n'
  end.

(** ** Asynchronous handlers and [src/api/api.ts] *)

(** What happens while a handler is suspended at an [await]: other handlers
    (inbound frames, other clicks) may rewrite the registry, and the awaited
    promise is then fulfilled or rejected. *)
Record Settled : Type := {
  arrived : list EspDevice -> list EspDevice;
  fulfilled : bool
}.

(** The outcome of each [await] of one handler invocation, numbered from 0
    in the order the invocation reaches them. *)
Definition Script : Type := nat -> Settled.

(** Nothing interleaves and every promise is fulfilled. *)
Definition calm : Script := fun _ => {| arrived := fun devs => devs; fulfilled := true |}.

Inductive Completion (A : Type) : Type :=
| Normal (a : A)
| Thrown.
Arguments Normal {A} a.
Arguments Thrown {A}.

(** An [async] function body: it reads the script, counts its awaits, and
    completes normally or by throwing. *)
Definition Async (A : Type) : Type :=
  Script -> nat * State -> Completion A * (nat * State).

Definition ret {A : Type} (a : A) : Async A := fun _ s => (Normal a, s).

Definition bind {A B : Type} (m : Async A) (k : A -> Async B) : Async B :=
  fun sc s =>
    match m sc s with
    | (Normal a, s') => k a sc s'
    | (Thrown, s') => (Thrown, s')
    end.

(** [try { body } catch (error) { handler }] *)
Definition try_catch {A : Type} (body handler : Async A) : Async A :=
  fun sc s =>
    match body sc s with
    | (Normal a, s') => (Normal a, s')
    | (Thrown, s') => handler sc s'
    end.

(** A synchronous state update inside an [async] body. *)
Definition sync (f : State -> State) : Async unit :=
  fun _ s => (Normal tt, (s.1, f s.2)).

(** [await p]: suspend, let the script's arrivals through, resume with the
    promise's outcome.  [may_reject] is false for a promise that can only
    be fulfilled. *)
Definition await (may_reject : bool) : Async unit :=
  fun sc s =>
    let s' := (S s.1, setDevices (arrived (sc s.1)) s.2) in
    if may_reject && negb (fulfilled (sc s.1)) then (Thrown, s') else (Normal tt, s').

Notation "m1 ;; m2" := (bind m1 (fun _ => m2))
  (at level 100, m2 at level 200, right associativity).

(** [await publishMQTTMessage(message, topic)]: the POST is issued (and
    recorded), and the promise rejects on a transport or server error. *)
Definition publishMQTTMessage (message : string) (topic : JsValue) : Async unit :=
  sync (fun st => set_published (published st ++ [(message, topic)]) st) ;;
  await true.

(** [await new Promise(resolve => setTimeout(resolve, 100))] *)
Definition delay : Async unit := await false.

(** Run one invocation of a handler to completion. *)
Definition invoke (h : Async unit) (sc : Script) (st : State) : State :=
  (h sc (0, st)).2.2.

(** ** [src/components/DeviceControls.tsx] *)

(** The optimistic updater of [handleToggleLight]. *)
Definition toggleLight_optimistic (device : EspDevice)
    (prev : list EspDevice) : list EspDevice :=
  let optimisticUpdate := js_not (lightOn device) in
  List.map
    (fun d =>
       if strict_eq (deviceId d) (deviceId device)
       then set_rgbMode (if truthy (lightOn d) then rgbMode d else JsBool false)
              (set_lightOn optimisticUpdate d)
       else d)
    prev.

(** The updater of its [catch] block. *)
Definition toggleLight_rollback (device : EspDevice)
    (prev : list EspDevice) : list EspDevice :=
  List.map
    (fun d =>
       if strict_eq (deviceId d) (deviceId device)
       then set_lightOn (lightOn device) d
       else d)
    prev.

Definition handleToggleLight (device : EspDevice) : Async unit :=
  let newState := if truthy (lightOn device) then "off" else "on" in
  sync (setDevices (toggleLight_optimistic device)) ;;
  try_catch
    (publishMQTTMessage newState (commandTopic device) ;;
     if negb (truthy (lightOn device)) && truthy (rgbMode device)
     then publishMQTTMessage "offRGB" (commandTopic device)
     else ret tt)
    (sync (setDevices (toggleLight_rollback device)) ;;
     sync (setErrorMessage (Some "Failed to toggle light"))).

(** The optimistic updater of [handleToggleRGB]. *)
Definition toggleRGB_optimistic (device : EspDevice)
    (prev : list EspDevice) : list EspDevice :=
  let optimisticRGB := js_not (rgbMode device) in
  List.map
    (fun d =>
       if strict_eq (deviceId d) (deviceId device)
       then set_lightOn (if truthy (rgbMode d) then lightOn d else JsBool false)
              (set_rgbMode optimisticRGB d)
       else d)
    prev.

(** The updater of its [catch] block. *)
Definition toggleRGB_rollback (device : EspDevice)
    (prev : list EspDevice) : list EspDevice :=
  List.map
    (fun d =>
       if strict_eq (deviceId d) (deviceId device)
       then set_rgbMode (rgbMode device) d
       else d)
    prev.

Definition handleToggleRGB (device : EspDevice) : Async unit :=
  let newRGBState := if truthy (rgbMode device) then "offRGB" else "onRGB" in
  sync (setDevices (toggleRGB_optimistic device)) ;;
  try_catch
    (delay ;;
     publishMQTTMessage newRGBState (commandTopic device) ;;
     if negb (truthy (rgbMode device)) && truthy (lightOn device)
     then publishMQTTMessage "off" (commandTopic device)
     else ret tt)
    (sync (setDevices (toggleRGB_rollback device)) ;;
     sync (setErrorMessage (Some "Failed to toggle RGB mode"))).

(** ** [SmartHomeDashboard] *)

(** The dashboard renders one [DeviceControls] per entry of [devices], with
    [device] bound to that entry; a click on the light button of card [i]
    runs [handleToggleLight] with the entry of the current render. *)
Definition clickToggleLight (i : nat) (sc : Script) (st : State) : State :=
  match devices st !! i with
  | Some device => invoke (handleToggleLight device) sc st
  | None => st
  end.

Definition clickToggleRGB (i : nat) (sc : Script) (st : State) : State :=
  match devices st !! i with
  | Some device => invoke (handleToggleRGB device) sc st
  | None => st
  end.

Definition handleDeleteClick (deviceId : JsValue) (st : State) : State :=
  setDeviceToDelete deviceId st.

(** The confirm button exists only while [deviceToDelete] is truthy. *)
Definition confirmDelete (st : State) : State :=
  if truthy (deviceToDelete st)
  then setDeviceToDelete JsNull (deleteDevice (deviceToDelete st) st)
  else st.

Definition cancelDelete (st : State) : State := setDeviceToDelete JsNull st.

(** ** The writers of the registry *)

(** Every updater [useWebSocket.ts] and [DeviceControls.tsx] pass to
    [setDevices]: the two of the message handler, and the optimistic update
    and the rollback of each toggle. *)
Inductive Mutation : Type :=
| UpsertFrame (data : gmap string JsValue)
| DeleteFrame (data : gmap string JsValue)
| OptimisticLight (device : EspDevice)
| RollbackLight (device : EspDevice)
| OptimisticRGB (device : EspDevice)
| RollbackRGB (device : EspDevice).

Definition mutate (m : Mutation) : list EspDevice -> list EspDevice :=
  match m with
  | UpsertFrame data => onmessage_upsert data
  | DeleteFrame data => onmessage_delete data
  | OptimisticLight device => toggleLight_optimistic device
  | RollbackLight device => toggleLight_rollback device
  | OptimisticRGB device => toggleRGB_optimistic device
  | RollbackRGB device => toggleRGB_rollback device
  end.

(** Every [deviceId] occurs at most once. *)
Definition unique_ids (devs : list EspDevice) : Prop := NoDup (ids devs).

(** A script under which the handler runs undisturbed: every awaited promise
    is fulfilled and nothing else touches the registry meanwhile. *)
Definition quiet (sc : Script) : Prop :=
  forall k, fulfilled (sc k) = true /\ forall devs, arrived (sc k) devs = devs.

(** ** Sample data *)

(** The device of the specification's scenario, as the initial fetch
    returns it: [{deviceId:"A", name:"Lamp", lightOn:false, commandTopic:"t/A"}]. *)
Definition lamp : EspDevice :=
  {| deviceId := JsString "A"; name := JsString "Lamp"; lightOn := JsBool false;
     rgbMode := JsUndefined; commandTopic := JsString "t/A" |}.

(** A second device, with both modes on. *)
Definition strip : EspDevice :=
  {| deviceId := JsString "B"; name := JsString "Strip"; lightOn := JsBool true;
     rgbMode := JsBool true; commandTopic := JsString "t/B" |}.

(** The dashboard once the effect has run, socket 0 has opened and the
    registry holds [devs]. *)
Definition online (devs : list EspDevice) : State :=
  setDevices (fun _ => devs) (run initial [Mount; SocketOpen 0]).

(** A script whose [k]-th promise is rejected, all else as in [calm]. *)
Definition rejecting (k : nat) : Script :=
  fun j => {| arrived := fun devs => devs; fulfilled := negb (Nat.eqb j k) |}.

(** ** [SmartHomeDashboard]: loading the registry *)

(** The mount effect of the dashboard,
    [fetchDevices().then((data) => setDevices(data))
                   .catch(() => setErrorMessage("Failed to fetch devices"))],
    once the promise of [fetchDevices()] has settled: [Some data] when it
    is fulfilled with the response body, [None] when it is rejected.  The
    body is taken to be an array of device objects. *)
Definition mount_fetch (response : option (list EspDevice)) (st : State) : State :=
  match response with
  | Some data => setDevices (fun _ => data) st
  | None => setErrorMessage (Some "Failed to fetch devices") st
  end.

(** The refresh button, [fetchDevices().then(setDevices)]: a rejection has
    no handler. *)
Definition refresh_fetch (response : option (list EspDevice)) (st : State) : State :=
  match response with
  | Some data => setDevices (fun _ => data) st
  | None => st
  end.

(** ** Earlier revisions *)

(** The first revision of the dashboard ([MqttDashboard], the first
    component of [MqttMessageInput.tsx]): the toggles publish first and
    touch the registry only once the publish has succeeded. *)
Module MqttDashboard.

Definition handleToggleLight (device : EspDevice) : Async unit :=
  let newState := if truthy (lightOn device) then "off" else "on" in
  try_catch
    (publishMQTTMessage newState (commandTopic device) ;;
     sync (setDevices
             (List.map
                (fun d =>
                   if strict_eq (deviceId d) (deviceId device)
                   then set_lightOn (js_not (lightOn d)) d
                   else d))))
    (sync (setErrorMessage (Some "Failed to toggle light"))).

Definition handleToggleRGB (device : EspDevice) : Async unit :=
  let newRGBState := if truthy (rgbMode device) then "offRGB" else "onRGB" in
  try_catch
    (publishMQTTMessage newRGBState (commandTopic device) ;;
     sync (setDevices
             (List.map
                (fun d =>
                   if strict_eq (deviceId d) (deviceId device)
                   then set_rgbMode (js_not (rgbMode d)) d
                   else d))))
    (sync (setErrorMessage (Some "Failed to toggle RGB"))).

(** [onClick={() => handleToggleLight(device)}] on the card of entry [i]. *)
Definition clickToggleLight (i : nat) (sc : Script) (st : State) : State :=
  match devices st !! i with
  | Some device => invoke (handleToggleLight device) sc st
  | None => st
  end.

Definition clickToggleRGB (i : nat) (sc : Script) (st : State) : State :=
  match devices st !! i with
  | Some device => invoke (handleToggleRGB device) sc st
  | None => st
  end.

End MqttDashboard.

(** The earlier revision of the hook (the second file of
  [src/unnamed/part_001]): its message handler knows heartbeats only;
  every other frame is an update or an addition. *)
Module EarlierHook.

Definition onmessage (parsed : Parsed) (st : State) : State :=
  match parsed with
  | SyntaxError | ParsedNull =>
      setWsErrorMessage (Some "Error processing WebSocket message") st
  | ParsedObject data =>
      if strict_eq (prop data "type") (JsString "heartbeat") then st
      else setDevices (onmessage_upsert data) st
  end.

End EarlierHook.

(** * Properties *)

(** ** Strict equality and the identifiers of a registry *)

Lemma strict_eq_true (a b : JsValue) : strict_eq a b = true <-> a = b.
Proof.
  destruct a, b; simpl; split; try congruence; try done.
  - intros H. apply Bool.eqb_prop in H. by subst.
  - intros [= ->]. apply Bool.eqb_reflx.
  - intros H. apply Z.eqb_eq in H. by subst.
  - intros [= ->]. apply Z.eqb_refl.
  - intros H. apply String.eqb_eq in H. by subst.
  - intros [= ->]. apply String.eqb_refl.
Qed.

Lemma strict_eq_refl (a : JsValue) : strict_eq a a = true.
Proof. by apply strict_eq_true. Qed.

Lemma strict_eq_decide (a b : JsValue) : strict_eq a b = bool_decide (a = b).
Proof.
  destruct (strict_eq a b) eqn:E; symmetry.
  - apply bool_decide_eq_true, strict_eq_true, E.
  - apply bool_decide_eq_false. intros H. apply strict_eq_true in H. congruence.
Qed.

Lemma existsb_ids (v : JsValue) (devs : list EspDevice) :
  existsb (fun d => strict_eq (deviceId d) v) devs = true <-> v ∈ ids devs.
Proof.
  unfold ids. rewrite existsb_exists, list_elem_of_fmap. split.
  - intros (d & Hd & He). exists d. apply strict_eq_true in He.
    split; [done | by apply list_elem_of_In].
  - intros (d & -> & Hd). exists d.
    split; [by apply list_elem_of_In | apply strict_eq_refl].
Qed.

Lemma ids_map_same (f : EspDevice -> EspDevice) (devs : list EspDevice) :
  (forall d, deviceId (f d) = deviceId d) -> ids (List.map f devs) = ids devs.
Proof.
  intros Hf. unfold ids. rewrite List.map_map. by apply List.map_ext.
Qed.

Lemma ids_filter_NoDup (p : EspDevice -> bool) (devs : list EspDevice) :
  NoDup (ids devs) -> NoDup (ids (List.filter p devs)).
Proof.
  unfold ids. induction devs as [|d devs IH]; simpl; [done|].
  intros Hnd. apply NoDup_cons in Hnd as [Hnotin Hnd].
  destruct (p d); simpl; [|by apply IH].
  apply NoDup_cons. split; [|by apply IH].
  intros Hin. apply Hnotin.
  apply list_elem_of_fmap in Hin as (d' & -> & Hd').
  apply list_elem_of_fmap. exists d'. split; [done|].
  apply list_elem_of_In. apply list_elem_of_In, List.filter_In in Hd'. tauto.
Qed.

(** A conditional field update of the matching records keeps every
    identifier where it is. *)
Lemma ids_map_if (c : EspDevice -> bool) (f : EspDevice -> EspDevice)
    (devs : list EspDevice) :
  (forall d, deviceId (f d) = deviceId d) ->
  ids (List.map (fun d => if c d then f d else d) devs) = ids devs.
Proof.
  intros Hf. apply ids_map_same. intros d. by destruct (c d).
Qed.

Lemma ids_toggleLight_optimistic (device : EspDevice) (devs : list EspDevice) :
  ids (toggleLight_optimistic device devs) = ids devs.
Proof. by apply ids_map_if. Qed.

Lemma ids_toggleLight_rollback (device : EspDevice) (devs : list EspDevice) :
  ids (toggleLight_rollback device devs) = ids devs.
Proof. by apply ids_map_if. Qed.

Lemma ids_toggleRGB_optimistic (device : EspDevice) (devs : list EspDevice) :
  ids (toggleRGB_optimistic device devs) = ids devs.
Proof. by apply ids_map_if. Qed.

Lemma ids_toggleRGB_rollback (device : EspDevice) (devs : list EspDevice) :
  ids (toggleRGB_rollback device devs) = ids devs.
Proof. by apply ids_map_if. Qed.

(** The two branches of the update-or-add updater. *)
Lemma onmessage_upsert_known (data : gmap string JsValue) (devs : list EspDevice) :
  prop data "deviceId" ∈ ids devs ->
  onmessage_upsert data devs =
  List.map
    (fun device =>
       if strict_eq (deviceId device) (prop data "deviceId")
       then set_rgbMode (prop data "rgbmode") (set_lightOn (prop data "lightOn") device)
       else device)
    devs.
Proof.
  intros Hin. apply existsb_ids in Hin. unfold onmessage_upsert. by rewrite Hin.
Qed.

Lemma onmessage_upsert_fresh (data : gmap string JsValue) (devs : list EspDevice) :
  prop data "deviceId" ∉ ids devs ->
  onmessage_upsert data devs =
  devs ++
  [ {| deviceId := prop data "deviceId";
       name := js_or (prop data "name")
                 (JsString ("ESP_" +:+ ToString (prop data "deviceId")));
       lightOn := prop data "lightOn";
       rgbMode := prop data "rgbmode";
       commandTopic := prop data "commandTopic" |} ].
Proof.
  intros Hnotin. unfold onmessage_upsert.
  destruct (existsb _ devs) eqn:E; [|done].
  apply existsb_ids in E. contradiction.
Qed.

Lemma ids_onmessage_upsert (data : gmap string JsValue) (devs : list EspDevice) :
  ids (onmessage_upsert data devs) =
  if bool_decide (prop data "deviceId" ∈ ids devs)
  then ids devs
  else ids devs ++ [prop data "deviceId"].
Proof.
  case_bool_decide as Hin.
  - rewrite onmessage_upsert_known by done. by apply ids_map_if.
  - rewrite onmessage_upsert_fresh by done. unfold ids. by rewrite List.map_app.
Qed.

Lemma ids_onmessage_delete (data : gmap string JsValue) (devs : list EspDevice) :
  ids (onmessage_delete data devs) =
  List.filter (fun v => negb (strict_eq v (prop data "deviceId"))) (ids devs).
Proof.
  unfold onmessage_delete, ids.
  induction devs as [|d devs IH]; simpl; [done|].
  destruct (strict_eq (deviceId d) _); simpl; by rewrite IH.
Qed.

(** Adding or updating, and removing, keep identifiers unique. *)
Lemma unique_ids_upsert (data : gmap string JsValue) (devs : list EspDevice) :
  unique_ids devs -> unique_ids (onmessage_upsert data devs).
Proof.
  unfold unique_ids. intros Hnd.
  rewrite ids_onmessage_upsert. case_bool_decide as Hin; [done|].
  apply NoDup_app. split; [done|]. split; [|apply NoDup_singleton].
  intros v Hv Hv'. apply list_elem_of_singleton in Hv'. by subst.
Qed.

Lemma unique_ids_delete (data : gmap string JsValue) (devs : list EspDevice) :
  unique_ids devs -> unique_ids (onmessage_delete data devs).
Proof. apply ids_filter_NoDup. Qed.

(** C8.  Uniqueness of [deviceId] is an invariant of the registry: from a
    registry in which every identifier occurs at most once, each writer -
    an update-or-add frame, a delete frame, the optimistic update of either
    toggle, the rollback of either toggle - yields a registry in which
    every identifier still occurs at most once. *)
Theorem unique_ids_invariant (m : Mutation) (devs : list EspDevice) :
  unique_ids devs -> unique_ids (mutate m devs).
Proof.
  intros Hnd. destruct m as [data|data|dv|dv|dv|dv]; simpl.
  1: by apply unique_ids_upsert.
  1: by apply unique_ids_delete.
  all: unfold unique_ids in *.
  - by rewrite ids_toggleLight_optimistic.
  - by rewrite ids_toggleLight_rollback.
  - by rewrite ids_toggleRGB_optimistic.
  - by rewrite ids_toggleRGB_rollback.
Qed.

Lemma unique_ids_invariant_witness :
  unique_ids [lamp; strip] /\
  unique_ids (mutate (UpsertFrame {[ "deviceId" := JsString "C" ]}) [lamp; strip]) /\
  unique_ids (mutate (DeleteFrame (delete_frame (JsString "A"))) [lamp; strip]) /\
  unique_ids (mutate (OptimisticLight lamp) [lamp; strip]).
Proof.
  assert (H : unique_ids [lamp; strip]).
  { unfold unique_ids. simpl. apply NoDup_cons. split; [|apply NoDup_singleton].
    intros Hin. apply list_elem_of_singleton in Hin. discriminate. }
  split; [exact H|]. repeat split; apply unique_ids_invariant; exact H.
Defined.

(** ** The message handler *)

(** C9.  A frame whose [type] is "heartbeat" - in particular
    [{"type":"heartbeat"}] - changes nothing at all: the registry keeps the
    same records field for field, and the reconnect counter and the
    connection state are not reset. *)
Theorem heartbeat_is_noop (st : State) (i : nat) (data : gmap string JsValue) :
  data !! "type" = Some (JsString "heartbeat") ->
  let st' := step st (SocketMessage i (ParsedObject data)) in
  st' = st /\
  devices st' = devices st /\ length (devices st') = length (devices st) /\
  reconnectAttempts st' = reconnectAttempts st /\
  isConnected st' = isConnected st.
Proof.
  intros Hty. simpl. unfold prop. rewrite Hty. simpl.
  by destruct (sockets st !! i).
Qed.

Lemma heartbeat_is_noop_witness :
  let data : gmap string JsValue := {[ "type" := JsString "heartbeat" ]} in
  let st := setReconnectAttempts (fun _ => 3) (online [lamp; strip]) in
  data !! "type" = Some (JsString "heartbeat") /\
  step st (SocketMessage 0 (ParsedObject data)) = st.
Proof.
  split; [reflexivity|].
  apply (heartbeat_is_noop _ 0 {[ "type" := JsString "heartbeat" ]}). reflexivity.
Defined.

(** C4, as stated, fails: a frame that parses but carries no [deviceId] is
    not caught.  [{"lightOn":true}] raises no error and adds a record. *)
Lemma missing_deviceId_counterexample :
  let data : gmap string JsValue := {[ "lightOn" := JsBool true ]} in
  let st := online [lamp] in
  let st' := step st (SocketMessage 0 (ParsedObject data)) in
  data !! "deviceId" = None /\
  wsErrorMessage st' = None /\
  devices st' <> devices st /\
  length (devices st') = 2.
Proof. vm_compute. repeat split; congruence. Qed.

(** C4, amended.  On a frame whose fields are JSON scalars the message
    handler leaves the sockets, the connection flag, the reconnect counter
    and the timers as they are, and it never writes the dashboard's
    displayed error message or raises a notification.  A frame on which
    [JSON.parse] throws (or which parses to [null]) is caught: the hook's
    own error message is set to "Error processing WebSocket message" and
    the registry is unchanged.  A frame that parses but lacks [deviceId] is
    not caught: the hook's error message stays as it was, and, when the
    frame has no [type] and no record has the identifier [undefined], a
    record with that identifier is appended, named "ESP_undefined" unless
    the frame carries a truthy name. *)
Theorem malformed_frame_handling (st : State) (i : nat) (parsed : Parsed) :
  is_Some (sockets st !! i) ->
  let st' := step st (SocketMessage i parsed) in
  (sockets st' = sockets st /\ wsRef st' = wsRef st /\
   isConnected st' = isConnected st /\
   reconnectAttempts st' = reconnectAttempts st /\ timers st' = timers st /\
   errorMessage st' = errorMessage st /\
   notifications st' = notifications st) /\
  match parsed with
  | SyntaxError | ParsedNull =>
      devices st' = devices st /\
      wsErrorMessage st' = Some "Error processing WebSocket message"
  | ParsedObject data =>
      wsErrorMessage st' = wsErrorMessage st /\
      (data !! "deviceId" = None -> data !! "type" = None ->
       JsUndefined ∉ ids (devices st) ->
       devices st' =
       devices st ++
       [ {| deviceId := JsUndefined;
            name := js_or (prop data "name") (JsString "ESP_undefined");
            lightOn := prop data "lightOn";
            rgbMode := prop data "rgbmode";
            commandTopic := prop data "commandTopic" |} ])
  end.
Proof.
  intros [ws Hws]. simpl. rewrite Hws.
  destruct parsed as [| |data]; simpl; [done|done|].
  destruct (strict_eq (prop data "type") (JsString "heartbeat")) eqn:Eh;
    [|destruct (strict_eq (prop data "type") (JsString "delete")) eqn:Ed];
    simpl; (split; [done|]); (split; [done|]); intros Hid Hty Hfresh.
  - unfold prop in Eh. by rewrite Hty in Eh.
  - unfold prop in Ed. by rewrite Hty in Ed.
  - assert (Hu : prop data "deviceId" = JsUndefined) by (unfold prop; by rewrite Hid).
    rewrite onmessage_upsert_fresh by (by rewrite Hu). by rewrite Hu.
Qed.

Lemma malformed_frame_handling_witness :
  let st' := step (online [lamp]) (SocketMessage 0 SyntaxError) in
  is_Some (sockets (online [lamp]) !! 0) /\
  (devices st' = [lamp] /\
   wsErrorMessage st' = Some "Error processing WebSocket message") /\
  errorMessage st' = None /\ notifications st' = [].
Proof.
  assert (H : is_Some (sockets (online [lamp]) !! 0)) by (eexists; reflexivity).
  split; [exact H|].
  destruct (malformed_frame_handling (online [lamp]) 0 SyntaxError H)
    as ((_ & _ & _ & _ & _ & He & Hn) & Hcaught).
  split; [exact Hcaught|]. split; [exact He | exact Hn].
Defined.

(** C6, as stated, fails: an update frame for a known device does not merge
    its [name] and [commandTopic]; the record keeps its own. *)
Lemma upsert_keeps_name_counterexample :
  let data : gmap string JsValue :=
    {[ "deviceId" := JsString "A"; "name" := JsString "Desk";
       "commandTopic" := JsString "t/desk"; "lightOn" := JsBool true;
       "rgbmode" := JsBool false ]} in
  JsString "A" ∈ ids [lamp] /\
  exists d', onmessage_upsert data [lamp] = [d'] /\
             name d' <> prop data "name" /\
             commandTopic d' <> prop data "commandTopic" /\
             name d' = JsString "Lamp" /\ commandTopic d' = JsString "t/A".
Proof.
  split; [apply list_elem_of_here|].
  eexists. split; [vm_compute; reflexivity|].
  vm_compute. repeat split; congruence.
Qed.

(** C6, amended.  If a record with the frame's [deviceId] exists, the
    registry keeps its length and order, every record keeps its [deviceId],
    [name] and [commandTopic], and the matching records get the frame's
    [lightOn] and [rgbmode] (as [lightOn] and [rgbMode]); the others are
    untouched.  Otherwise one record is appended, built from the frame's
    fields, with [name] the frame's name when that is truthy and
    "ESP_" followed by the identifier otherwise. *)
Theorem upsert_updates_or_appends (data : gmap string JsValue)
    (devs : list EspDevice) :
  let id := prop data "deviceId" in
  let devs' := onmessage_upsert data devs in
  (id ∈ ids devs ->
   length devs' = length devs /\
   forall i d, devs !! i = Some d ->
     exists d', devs' !! i = Some d' /\
       deviceId d' = deviceId d /\ name d' = name d /\
       commandTopic d' = commandTopic d /\
       if decide (deviceId d = id)
       then lightOn d' = prop data "lightOn" /\ rgbMode d' = prop data "rgbmode"
       else d' = d) /\
  (id ∉ ids devs ->
   exists d', devs' = devs ++ [d'] /\
     deviceId d' = id /\
     lightOn d' = prop data "lightOn" /\
     rgbMode d' = prop data "rgbmode" /\
     commandTopic d' = prop data "commandTopic" /\
     name d' = (if truthy (prop data "name") then prop data "name"
                else JsString ("ESP_" +:+ ToString id)) /\
     (data !! "name" = None -> name d' = JsString ("ESP_" +:+ ToString id))).
Proof.
  simpl. split.
  - intros Hin. rewrite onmessage_upsert_known by done. split.
    + apply List.length_map.
    + intros i d Hi.
      change (List.map ?f devs) with (f <$> devs).
      rewrite list_lookup_fmap, Hi. simpl. eexists. split; [reflexivity|].
      rewrite strict_eq_decide.
      destruct (decide (deviceId d = prop data "deviceId")) as [E|E].
      * by rewrite bool_decide_eq_true_2.
      * by rewrite bool_decide_eq_false_2.
  - intros Hfresh. rewrite onmessage_upsert_fresh by done.
    eexists. split; [reflexivity|]. simpl. repeat split.
    intros Hn. unfold js_or, prop at 1. by rewrite Hn.
Qed.

Lemma upsert_updates_or_appends_witness :
  let data : gmap string JsValue :=
    {[ "deviceId" := JsString "C"; "lightOn" := JsBool true ]} in
  (prop data "deviceId" ∉ ids [lamp; strip]) /\
  exists d', onmessage_upsert data [lamp; strip] = [lamp; strip] ++ [d'] /\
             deviceId d' = JsString "C" /\ name d' = JsString "ESP_C".
Proof.
  set (data := {[ "deviceId" := JsString "C"; "lightOn" := JsBool true ]}
               : gmap string JsValue).
  assert (H : prop data "deviceId" ∉ ids [lamp; strip]).
  { intros Hin. apply existsb_ids in Hin. vm_compute in Hin. discriminate. }
  split; [exact H|].
  destruct (proj2 (upsert_updates_or_appends data [lamp; strip]) H)
    as (d' & H1 & H2 & _ & _ & _ & _ & H7).
  exists d'. split; [exact H1|]. split; [exact H2|]. apply H7. reflexivity.
Defined.

(** The scenario of the specification: the fetched lamp is updated by a
    frame and then removed by a delete frame. *)
Example scenario_update_then_delete :
  let st0 := online [lamp] in
  let frame : gmap string JsValue :=
    {[ "deviceId" := JsString "A"; "lightOn" := JsBool true;
       "rgbmode" := JsBool false; "commandTopic" := JsString "t/A" ]} in
  let st1 := step st0 (SocketMessage 0 (ParsedObject frame)) in
  let st2 := step st1 (SocketMessage 0 (ParsedObject (delete_frame (JsString "A")))) in
  devices st1 = [set_rgbMode (JsBool false) (set_lightOn (JsBool true) lamp)] /\
  devices st2 = [].
Proof. vm_compute. done. Qed.

(** ** Sending on the channel *)

Lemma channel_open_spec (st : State) :
  channel_open st = true <->
  exists i ws, wsRef st = Some i /\ sockets st !! i = Some ws /\ readyState ws = OPEN.
Proof.
  unfold channel_open, current_socket. split.
  - destruct (wsRef st) as [i|]; simpl; [|done].
    destruct (sockets st !! i) as [ws|] eqn:E; simpl; [|done].
    intros H. apply bool_decide_eq_true in H. by exists i, ws.
  - intros (i & ws & -> & Hi & Ho). simpl. rewrite Hi. simpl.
    by apply bool_decide_eq_true.
Qed.

Lemma deleteDevice_open (id : JsValue) (st : State) (i : nat) (ws : WebSocket) :
  wsRef st = Some i -> sockets st !! i = Some ws -> readyState ws = OPEN ->
  deleteDevice id st
  = set_sockets (<[i := push_sent (delete_frame id) ws]> (sockets st)) st.
Proof.
  intros Hi Hws Ho. unfold deleteDevice.
  assert (Hopen : channel_open st = true) by (apply channel_open_spec; eauto).
  rewrite Hopen. unfold send. by rewrite Hi, Hws.
Qed.

Lemma deleteDevice_not_open (id : JsValue) (st : State) :
  (~ exists i ws, wsRef st = Some i /\ sockets st !! i = Some ws /\
                  readyState ws = OPEN) ->
  deleteDevice id st = setWsErrorMessage (Some "WebSocket is not connected") st.
Proof.
  intros Hno. unfold deleteDevice.
  destruct (channel_open st) eqn:E; [|done].
  apply channel_open_spec in E. contradiction.
Qed.

(** The object given to [JSON.stringify] has the two fields [type] and
    [deviceId], and no other. *)
Lemma delete_frame_fields (id : JsValue) :
  delete_frame id !! "type" = Some (JsString "delete") /\
  delete_frame id !! "deviceId" = Some id /\
  forall k, k <> "type" -> k <> "deviceId" -> delete_frame id !! k = None.
Proof.
  unfold delete_frame. split; [apply lookup_insert_eq|]. split.
  - rewrite lookup_insert_ne by done. apply lookup_singleton_eq.
  - intros k Hk1 Hk2. rewrite lookup_insert_ne by done.
    by apply lookup_singleton_ne.
Qed.

(** [deleteDevice] writes nothing the dashboard owns. *)
Lemma deleteDevice_keeps_dashboard (id : JsValue) (st : State) :
  errorMessage (deleteDevice id st) = errorMessage st /\
  notifications (deleteDevice id st) = notifications st /\
  devices (deleteDevice id st) = devices st /\
  deviceToDelete (deleteDevice id st) = deviceToDelete st /\
  published (deleteDevice id st) = published st /\
  timers (deleteDevice id st) = timers st.
Proof.
  unfold deleteDevice, send. destruct (channel_open st); [|done].
  destruct (wsRef st) as [i|]; [|done]. by destruct (sockets st !! i).
Qed.

(** C7, as stated, fails in its last part: a [deleteDevice] that cannot send
    surfaces nothing to its caller.  With the socket still connecting, the
    call leaves the dashboard's displayed error and notifications as they
    were, and [confirmDelete], which called it, ends in the same dashboard
    state as after a successful send; only the hook's own error message
    records the failure. *)
Lemma deleteDevice_failure_counterexample :
  let closed := setDevices (fun _ => [lamp]) (run initial [Mount]) in
  let opened := online [lamp] in
  let c := confirmDelete (handleDeleteClick (JsString "A") closed) in
  let o := confirmDelete (handleDeleteClick (JsString "A") opened) in
  channel_open closed = false /\ channel_open opened = true /\
  errorMessage (deleteDevice (JsString "A") closed) = errorMessage closed /\
  notifications (deleteDevice (JsString "A") closed) = notifications closed /\
  (devices c, errorMessage c, notifications c, deviceToDelete c, published c)
  = (devices o, errorMessage o, notifications o, deviceToDelete o, published o) /\
  wsErrorMessage c = Some "WebSocket is not connected".
Proof. vm_compute. done. Qed.

(** C7, amended.  [deleteDevice] puts a frame with exactly the two fields
    [type] = "delete" and [deviceId] on the current socket exactly when
    that socket is [OPEN]: the frame is appended to what that socket has
    sent, every other socket is untouched and no error is set.  In every
    other situation (no socket yet, or one that is connecting, closing or
    closed) nothing is sent and nothing is queued - no socket, timer or
    publish changes - and the failure is recorded in the hook's own error
    message, "WebSocket is not connected", and nowhere else.  In both
    cases the dashboard's displayed error, its notifications, the registry
    and the pending dialogue are as before, so the caller sees no
    difference. *)
Theorem deleteDevice_only_when_open (id : JsValue) (st : State) :
  let st' := deleteDevice id st in
  (forall i ws,
      wsRef st = Some i -> sockets st !! i = Some ws -> readyState ws = OPEN ->
      (sockets st' = <[i := push_sent (delete_frame id) ws]> (sockets st) /\
       sent (push_sent (delete_frame id) ws) = sent ws ++ [delete_frame id] /\
       wsErrorMessage st' = wsErrorMessage st) /\
      exists frame : gmap string JsValue,
        frame !! "type" = Some (JsString "delete") /\
        frame !! "deviceId" = Some id /\
        (forall k, k <> "type" -> k <> "deviceId" -> frame !! k = None) /\
        sockets st' !! i
        = Some {| readyState := OPEN; sent := sent ws ++ [frame];
                  scope := scope ws |} /\
        (forall j, j <> i -> sockets st' !! j = sockets st !! j) /\
        length (sockets st') = length (sockets st)) /\
  ((~ exists i ws, wsRef st = Some i /\ sockets st !! i = Some ws /\
                   readyState ws = OPEN) ->
      st' = setWsErrorMessage (Some "WebSocket is not connected") st /\
      sockets st' = sockets st /\ timers st' = timers st /\
      published st' = published st /\
      wsErrorMessage st' = Some "WebSocket is not connected") /\
  (errorMessage st' = errorMessage st /\
   notifications st' = notifications st /\
   devices st' = devices st /\
   deviceToDelete st' = deviceToDelete st).
Proof.
  simpl. split; [|split].
  - intros i ws Hi Hws Ho. rewrite (deleteDevice_open id st i ws) by done.
    split; [done|]. simpl.
    destruct (delete_frame_fields id) as (Ft & Fd & Fo).
    exists (delete_frame id). split; [done|]. split; [done|]. split; [done|].
    split; [|split].
    + rewrite list_lookup_insert_eq by (by eapply lookup_lt_Some).
      unfold push_sent. by rewrite Ho.
    + intros j Hj. by apply list_lookup_insert_ne.
    + apply length_insert.
  - intros Hno. by rewrite deleteDevice_not_open.
  - destruct (deleteDevice_keeps_dashboard id st) as (H1 & H2 & H3 & H4 & _).
    done.
Qed.

Lemma deleteDevice_only_when_open_witness :
  let st := online [lamp] in
  let ws := {| readyState := OPEN; sent := []; scope := first_render |} in
  wsRef st = Some 0 /\ sockets st !! 0 = Some ws /\ readyState ws = OPEN /\
  exists frame : gmap string JsValue,
    frame !! "type" = Some (JsString "delete") /\
    frame !! "deviceId" = Some (JsString "A") /\
    sockets (deleteDevice (JsString "A") st) !! 0
    = Some {| readyState := OPEN; sent := [frame]; scope := first_render |}.
Proof.
  split; [reflexivity|]. split; [reflexivity|]. split; [reflexivity|].
  destruct (proj2 (proj1 (deleteDevice_only_when_open (JsString "A") (online [lamp]))
                     0 {| readyState := OPEN; sent := []; scope := first_render |}
                     eq_refl eq_refl eq_refl))
    as (frame & Ft & Fd & _ & Hs & _).
  exists frame. split; [exact Ft|]. split; [exact Fd | exact Hs].
Defined.

(** ** Reconnection *)

(** The guard of [connectWebSocket] does give up when the count it reads has
    reached the maximum. *)
Lemma connectWebSocket_guard (r : Render) (st : State) :
  MAX_RECONNECT_ATTEMPTS <= seen_reconnectAttempts r ->
  connectWebSocket r st
  = setWsErrorMessage (Some "Maximum reconnection attempts reached") st.
Proof.
  intros Hmax. unfold connectWebSocket.
  by rewrite (proj2 (Nat.leb_le _ _) Hmax).
Qed.

(** But the handlers of every socket belong to the first render, whose
    count is 0: a closure followed by its timer opens the next socket and
    leaves the error message alone, whatever the counter in the state. *)
Lemma closure_reconnects (st : State) (i : nat) (ws : WebSocket) :
  sockets st !! i = Some ws -> scope ws = first_render -> timers st = [] ->
  let st' := run st [SocketClose i; TimerFires] in
  sockets st' =
    <[i := set_readyState CLOSED ws]> (sockets st) ++
    [ {| readyState := CONNECTING; sent := []; scope := first_render |} ] /\
  wsRef st' = Some (length (sockets st)) /\
  timers st' = [] /\
  reconnectAttempts st' = reconnectAttempts st + 1 /\
  wsErrorMessage st' = wsErrorMessage st.
Proof.
  intros Hws Hsc Ht. simpl. rewrite Hws. unfold onclose. simpl.
  rewrite Ht, Hsc. simpl. by rewrite length_insert.
Qed.

Lemma closures_keep_connecting (n : nat) :
  forall (st : State) (i : nat),
    length (sockets st) = S i ->
    sockets st !! i
    = Some {| readyState := CONNECTING; sent := []; scope := first_render |} ->
    timers st = [] ->
    let st' := run st (closures i n) in
    length (sockets st') = S (i + n) /\
    sockets st' !! (i + n)
    = Some {| readyState := CONNECTING; sent := []; scope := first_render |} /\
    wsRef st' = (if n is 0 then wsRef st else Some (i + n)) /\
    timers st' = [] /\
    reconnectAttempts st' = reconnectAttempts st + n /\
    wsErrorMessage st' = wsErrorMessage st.
Proof.
  induction n as [|n IH]; intros st i Hlen Hlast Ht.
  - simpl. rewrite !Nat.add_0_r. done.
  - change (closures i (S n))
      with ([SocketClose i; TimerFires] ++ closures (S i) n).
    unfold run. rewrite fold_left_app. fold (run st [SocketClose i; TimerFires]).
    destruct (closure_reconnects st i _ Hlast eq_refl Ht)
      as (Hs & Hr & Ht' & Hc & He).
    set (st1 := run st [SocketClose i; TimerFires]) in *.
    fold (run st1 (closures (S i) n)).
    destruct (IH st1 (S i)) as (L & S' & R & T & C & E).
    + rewrite Hs, length_app, length_insert, Hlen. simpl. lia.
    + rewrite Hs, lookup_app_r by (rewrite length_insert; lia).
      rewrite length_insert, Hlen, Nat.sub_diag. done.
    + done.
    + replace (i + S n) with (S i + n) by lia.
      rewrite L, S', T, C, E, Hc, He. repeat split; try done; try lia.
      rewrite R. destruct n; [|done]. rewrite Hr, Hlen. f_equal. lia.
Qed.

(** X8.  However many times in a row the channel closes, the hook connects
    again: [n] closures after mounting leave [n + 1] sockets, the newest one
    connecting, and no error message. *)
Lemma reconnect_is_unbounded (n : nat) :
  let st := run initial (Mount :: closures 0 n) in
  length (sockets st) = S n /\
  sockets st !! n
  = Some {| readyState := CONNECTING; sent := []; scope := first_render |} /\
  timers st = [] /\
  reconnectAttempts st = n /\
  wsErrorMessage st = None.
Proof.
  destruct (closures_keep_connecting n (step initial Mount) 0)
    as (L & S' & _ & T & C & E); try done.
Qed.

(** C3 (the code falls short of it).  After mounting and exactly 5
    consecutive closures with no open in between, the hook is not in a
    given-up state: the timer of the fifth closure has constructed a sixth
    socket, which is connecting, no error message is set although the
    counter stands at 5, and a sixth closure leads to a seventh attempt. *)
Theorem five_closures_then_sixth_attempt :
  let st := run initial (Mount :: closures 0 5) in
  length (sockets st) = 6 /\
  current_socket st
  = Some {| readyState := CONNECTING; sent := []; scope := first_render |} /\
  reconnectAttempts st = MAX_RECONNECT_ATTEMPTS /\
  wsErrorMessage st = None /\
  length (sockets (run st [SocketClose 5; TimerFires])) = 7.
Proof. vm_compute. done. Qed.

(** ** The optimistic toggles *)

Ltac unfold_async :=
  unfold invoke, handleToggleLight, handleToggleRGB, publishMQTTMessage, delay,
    try_catch, bind, sync, await, ret; simpl.

Lemma quiet_calm : quiet calm.
Proof. intros k. split; [reflexivity | intros devs; reflexivity]. Defined.

Lemma lookup_map_if (c : EspDevice -> bool) (f : EspDevice -> EspDevice)
    (devs : list EspDevice) (i : nat) :
  List.map (fun d => if c d then f d else d) devs !! i
  = (fun d => if c d then f d else d) <$> devs !! i.
Proof. apply (list_lookup_fmap (fun d => if c d then f d else d)). Qed.

(** Undisturbed, [handleToggleLight] leaves the registry as its optimistic
    update made it. *)
Lemma devices_handleToggleLight_quiet (device : EspDevice) (sc : Script)
    (st : State) :
  quiet sc ->
  devices (invoke (handleToggleLight device) sc st)
  = toggleLight_optimistic device (devices st).
Proof.
  intros Hq. unfold_async.
  destruct (Hq 0) as [F0 A0]. destruct (Hq 1) as [F1 A1].
  rewrite F0. simpl.
  destruct (negb (truthy (lightOn device)) && truthy (rgbMode device)); simpl.
  - rewrite F1. simpl. by rewrite A1, A0.
  - by rewrite A0.
Qed.

(** C1, as stated, fails: for a device with the light off and colour mode
    on, two successful toggles of the light bring the light back to off but
    leave colour mode off. *)
Lemma toggle_light_twice_counterexample :
  let d := set_rgbMode (JsBool true) lamp in
  let st := online [d] in
  let st' := clickToggleLight 0 calm (clickToggleLight 0 calm st) in
  lightOn d = JsBool false /\ rgbMode d = JsBool true /\
  published st' = [("on", JsString "t/A"); ("offRGB", JsString "t/A");
                   ("off", JsString "t/A")] /\
  notifications st' = [] /\
  exists d', devices st' = [d'] /\ lightOn d' = lightOn d /\
             rgbMode d' <> rgbMode d.
Proof.
  vm_compute. repeat split. eexists. repeat split. congruence.
Qed.

(** C1, amended.  For a device record whose [lightOn] is a boolean, two
    successive undisturbed toggles of the light restore [lightOn] and leave
    [rgbMode] false - so the original [rgbMode] is restored exactly when it
    was false.  The other fields are untouched. *)
Theorem toggle_light_twice (i : nat) (d : EspDevice) (b : bool)
    (sc1 sc2 : Script) (st : State) :
  devices st !! i = Some d ->
  lightOn d = JsBool b ->
  quiet sc1 -> quiet sc2 ->
  let st' := clickToggleLight i sc2 (clickToggleLight i sc1 st) in
  exists d',
    devices st' !! i = Some d' /\
    lightOn d' = lightOn d /\
    rgbMode d' = JsBool false /\
    (rgbMode d' = rgbMode d <-> rgbMode d = JsBool false) /\
    deviceId d' = deviceId d /\ name d' = name d /\
    commandTopic d' = commandTopic d.
Proof.
  intros Hi Hb Hq1 Hq2. simpl.
  unfold clickToggleLight at 2. rewrite Hi.
  set (st1 := invoke (handleToggleLight d) sc1 st).
  assert (H1 : devices st1 = toggleLight_optimistic d (devices st))
    by by apply devices_handleToggleLight_quiet.
  set (d1 := set_rgbMode (if truthy (lightOn d) then rgbMode d else JsBool false)
               (set_lightOn (js_not (lightOn d)) d)).
  assert (Hi1 : devices st1 !! i = Some d1).
  { rewrite H1. unfold toggleLight_optimistic. rewrite lookup_map_if, Hi. simpl.
    by rewrite strict_eq_refl. }
  unfold clickToggleLight. rewrite Hi1.
  rewrite devices_handleToggleLight_quiet by done.
  unfold toggleLight_optimistic at 1. rewrite lookup_map_if, Hi1. simpl.
  rewrite strict_eq_refl. eexists. split; [reflexivity|].
  rewrite Hb. destruct b; simpl; repeat split; try done; congruence.
Qed.

Lemma toggle_light_twice_witness :
  let st' := clickToggleLight 1 calm (clickToggleLight 1 calm (online [lamp; strip])) in
  devices (online [lamp; strip]) !! 1 = Some strip /\
  lightOn strip = JsBool true /\
  exists d', devices st' !! 1 = Some d' /\ lightOn d' = lightOn strip /\
             rgbMode d' = JsBool false.
Proof.
  assert (H : devices (online [lamp; strip]) !! 1 = Some strip) by reflexivity.
  split; [exact H|]. split; [reflexivity|].
  destruct (toggle_light_twice 1 strip true calm calm (online [lamp; strip])
              H eq_refl quiet_calm quiet_calm) as (d' & H1 & H2 & H3 & _).
  exists d'. repeat split; assumption.
Defined.

Lemma rollback_restores_lightOn (device d : EspDevice) (devs : list EspDevice) :
  d ∈ toggleLight_rollback device devs ->
  strict_eq (deviceId d) (deviceId device) = true ->
  lightOn d = lightOn device.
Proof.
  unfold toggleLight_rollback. intros Hin Heq.
  apply list_elem_of_fmap in Hin as (d0 & -> & _).
  destruct (strict_eq (deviceId d0) (deviceId device)) eqn:E; [done|].
  congruence.
Qed.

(** C2.  Take a device record with [lightOn] false and toggle its light;
    let a publish of that toggle fail (the first, or the "offRGB" one that
    follows when colour mode was on).  Then, whatever other handlers did to
    the registry while the publish was pending, every record with the
    device's identifier ends with [lightOn] false - the value of the record
    the handler was invoked with - and exactly one error notification,
    "Failed to toggle light", is raised.  When nothing else touched the
    registry, the record is still at its place. *)
Theorem toggle_light_rollback (device : EspDevice) (sc : Script) (st : State) :
  lightOn device = JsBool false ->
  fulfilled (sc 0) = false \/
  (truthy (rgbMode device) = true /\ fulfilled (sc 1) = false) ->
  let st' := invoke (handleToggleLight device) sc st in
  (forall d, d ∈ devices st' ->
             strict_eq (deviceId d) (deviceId device) = true ->
             lightOn d = JsBool false) /\
  notifications st' = notifications st ++ ["Failed to toggle light"] /\
  errorMessage st' = Some "Failed to toggle light" /\
  ((forall k devs, arrived (sc k) devs = devs) ->
   forall i, devices st !! i = Some device ->
             exists d', devices st' !! i = Some d' /\ lightOn d' = JsBool false).
Proof.
  intros Hoff Hfail. simpl.
  assert (Hinv : exists mid,
             devices (invoke (handleToggleLight device) sc st)
             = toggleLight_rollback device mid
             /\ ((forall k devs, arrived (sc k) devs = devs) ->
                 mid = toggleLight_optimistic device (devices st))
             /\ notifications (invoke (handleToggleLight device) sc st)
                = notifications st ++ ["Failed to toggle light"]
             /\ errorMessage (invoke (handleToggleLight device) sc st)
                = Some "Failed to toggle light").
  { unfold_async. rewrite Hoff. simpl.
    destruct (fulfilled (sc 0)) eqn:E0; simpl.
    - destruct Hfail as [|[Hrgb E1]]; [done|]. rewrite Hrgb. simpl.
      rewrite E1. simpl. eexists. split; [reflexivity|].
      split; [|done]. intros Ha. by rewrite !Ha.
    - eexists. split; [reflexivity|]. split; [|done]. intros Ha. by rewrite Ha. }
  destruct Hinv as (mid & Hd & Hmid & Hn & He).
  split; [|split; [done|split; [done|]]].
  - intros d Hin Hid. rewrite Hd in Hin.
    rewrite <- Hoff. by eapply rollback_restores_lightOn.
  - intros Ha i Hi. rewrite Hd, (Hmid Ha).
    unfold toggleLight_rollback, toggleLight_optimistic.
    rewrite !lookup_map_if, Hi. simpl. rewrite strict_eq_refl. simpl.
    rewrite strict_eq_refl. eexists. split; [reflexivity|]. done.
Qed.

Lemma toggle_light_rollback_witness :
  let st' := invoke (handleToggleLight lamp) (rejecting 0) (online [lamp]) in
  lightOn lamp = JsBool false /\
  fulfilled (rejecting 0 0) = false /\
  notifications st' = ["Failed to toggle light"] /\
  errorMessage st' = Some "Failed to toggle light".
Proof.
  split; [reflexivity|]. split; [reflexivity|].
  destruct (toggle_light_rollback lamp (rejecting 0) (online [lamp])
              eq_refl (or_introl eq_refl)) as (_ & Hn & He & _).
  split; [exact Hn | exact He].
Defined.

(** C5, as stated, fails: switching colour mode off while the light is on
    publishes "offRGB" alone; no "off" follows. *)
Lemma toggle_rgb_off_counterexample :
  let st' := clickToggleRGB 0 calm (online [strip]) in
  truthy (rgbMode strip) = true /\ truthy (lightOn strip) = true /\
  published st' = [("offRGB", commandTopic strip)] /\
  published st' <> [("offRGB", commandTopic strip); ("off", commandTopic strip)].
Proof. vm_compute. repeat split. congruence. Qed.

(** C5, amended.  When every publish succeeds, [handleToggleRGB] issues:
    with colour mode on, the single publish "offRGB", whether the light is
    on or off; with colour mode off and the light on, "onRGB" followed by
    "off"; with both off, the single publish "onRGB".  All go to the
    device's command topic. *)
Theorem toggle_rgb_publishes (device : EspDevice) (sc : Script) (st : State) :
  (forall k, fulfilled (sc k) = true) ->
  published (invoke (handleToggleRGB device) sc st) =
  published st ++
  (if truthy (rgbMode device) then [("offRGB", commandTopic device)]
   else if truthy (lightOn device)
        then [("onRGB", commandTopic device); ("off", commandTopic device)]
        else [("onRGB", commandTopic device)]).
Proof.
  intros Hok. unfold_async. rewrite !Hok. simpl.
  destruct (truthy (rgbMode device)); simpl; [done|].
  destruct (truthy (lightOn device)); simpl; [|done].
  rewrite Hok. simpl. by rewrite <- app_assoc.
Qed.

Lemma toggle_rgb_publishes_witness :
  (forall k, fulfilled (calm k) = true) /\
  published (invoke (handleToggleRGB strip) calm (online [strip]))
  = [("offRGB", JsString "t/B")].
Proof.
  split; [intros k; reflexivity|].
  exact (toggle_rgb_publishes strip calm (online [strip]) (fun k => eq_refl)).
Defined.

(** ** Deleting a device *)

Lemma devices_deleteDevice (id : JsValue) (st : State) :
  devices (deleteDevice id st) = devices st.
Proof.
  unfold deleteDevice, send. destruct (channel_open st); [|done].
  destruct (wsRef st) as [i|]; [|done]. by destruct (sockets st !! i).
Qed.

(** Only a message that parses to an object can change the registry. *)
Lemma devices_step_other (st : State) (e : Event) :
  (forall i data, e <> SocketMessage i (ParsedObject data)) ->
  devices (step st e) = devices st.
Proof.
  intros He. destruct e as [| |i|i p|i|i|]; simpl.
  - done.
  - unfold cleanup. destruct (channel_open st); [|done].
    destruct (wsRef st) as [i|]; [|done]. by destruct (sockets st !! i).
  - by destruct (sockets st !! i).
  - destruct (sockets st !! i); [|done].
    destruct p as [| |data]; try done. by destruct (He i data).
  - by destruct (sockets st !! i).
  - by destruct (sockets st !! i).
  - destruct (timers st) as [|r rest]; [done|]. unfold reconnect.
    destruct (_ && _); [|done]. unfold connectWebSocket.
    by destruct (_ <=? _)%nat.
Qed.

Lemma elem_of_filter_ids (v w : JsValue) (l : list JsValue) :
  v ∈ List.filter (fun x => negb (strict_eq x w)) l <-> v ∈ l /\ v <> w.
Proof.
  rewrite !list_elem_of_In, List.filter_In, negb_true_iff.
  split; intros [H1 H2]; split; try done.
  - intros ->. by rewrite strict_eq_refl in H2.
  - destruct (strict_eq v w) eqn:E; [|done]. by apply strict_eq_true in E.
Qed.

(** Uniqueness of identifiers also survives every event of the hook. *)
Lemma step_keeps_unique_ids (st : State) (e : Event) :
  unique_ids (devices st) -> unique_ids (devices (step st e)).
Proof.
  intros Hu.
  destruct e as [| |i|i [| |data]|i|i|];
    try (by rewrite devices_step_other by (intros; discriminate)).
  simpl. destruct (sockets st !! i); [|done]. simpl.
  destruct (strict_eq (prop data "type") (JsString "heartbeat")); [done|].
  destruct (strict_eq (prop data "type") (JsString "delete")); simpl.
  - by apply unique_ids_delete.
  - by apply unique_ids_upsert.
Qed.

(** Whatever the channel or the hook's life cycle does, an identifier
    leaves the registry only through a frame of type "delete" that names
    it. *)
Lemma id_vanishes_only_by_delete (st : State) (e : Event) (v : JsValue) :
  v ∈ ids (devices st) -> v ∉ ids (devices (step st e)) ->
  exists i data, e = SocketMessage i (ParsedObject data) /\
                 prop data "type" = JsString "delete" /\
                 prop data "deviceId" = v.
Proof.
  intros Hin Hout.
  destruct e as [| |i|i [| |data]|i|i|];
    try (rewrite devices_step_other in Hout by (intros; discriminate);
         contradiction).
  simpl in Hout. destruct (sockets st !! i); [|contradiction].
  simpl in Hout.
  destruct (strict_eq (prop data "type") (JsString "heartbeat")); [contradiction|].
  destruct (strict_eq (prop data "type") (JsString "delete")) eqn:Ed;
    simpl in Hout.
  - exists i, data. split; [done|]. split; [by apply strict_eq_true|].
    rewrite ids_onmessage_delete in Hout.
    destruct (decide (prop data "deviceId" = v)) as [|Hne]; [done|].
    exfalso. apply Hout. apply elem_of_filter_ids. split; [done|congruence].
  - exfalso. apply Hout. rewrite ids_onmessage_upsert.
    case_bool_decide; [done|]. apply elem_of_app. by left.
Qed.

(** C10, as stated, fails on two counts.  The delete action does not always
    send the command: with the socket still connecting, choosing and
    confirming a device sends nothing.  And a delete event is not the only
    way a record leaves the registry: the dashboard's own fetch replaces the
    registry wholesale, so a lamp added by a frame is gone once a fetch that
    does not list it resolves. *)
Lemma delete_action_counterexample :
  let closed := setDevices (fun _ => [lamp]) (run initial [Mount]) in
  let asked := confirmDelete (handleDeleteClick (JsString "A") closed) in
  truthy (JsString "A") = true /\
  sockets asked
  = [ {| readyState := CONNECTING; sent := []; scope := first_render |} ] /\
  devices asked = [lamp] /\
  JsString "A" ∈ ids (devices (online [lamp])) /\
  (JsString "A" ∉ ids (devices (mount_fetch (Some [strip]) (online [lamp])))).
Proof.
  split; [reflexivity|]. split; [reflexivity|]. split; [reflexivity|].
  split; [apply list_elem_of_here|].
  intros Hin. apply list_elem_of_singleton in Hin. discriminate.
Qed.

(** C10, amended.  The dashboard's delete action is the server-confirmed
    variant.  For a truthy identifier (the confirm button exists for no
    other), choosing a device and confirming leaves the registry exactly as
    it was.  When the current socket is [OPEN], the frame with the two
    fields [type] = "delete" and [deviceId] is appended to what that socket
    has sent, the other sockets being untouched; when the channel is not
    open, nothing is sent.  The record goes away when a delete frame for its
    identifier arrives on the channel: after that frame no record has the
    identifier and the records with other identifiers are all still there.
    Among the events of the channel no other one makes an identifier leave
    the registry. *)
Theorem delete_is_server_confirmed (id : JsValue) (st : State) :
  truthy id = true ->
  let asked := confirmDelete (handleDeleteClick id st) in
  devices asked = devices st /\
  devices (handleDeleteClick id st) = devices st /\
  (forall i ws,
      wsRef st = Some i -> sockets st !! i = Some ws -> readyState ws = OPEN ->
      sockets asked !! i = Some (push_sent (delete_frame id) ws) /\
      exists frame : gmap string JsValue,
        frame !! "type" = Some (JsString "delete") /\
        frame !! "deviceId" = Some id /\
        (forall k, k <> "type" -> k <> "deviceId" -> frame !! k = None) /\
        sockets asked !! i
        = Some {| readyState := OPEN; sent := sent ws ++ [frame];
                  scope := scope ws |} /\
        (forall j, j <> i -> sockets asked !! j = sockets st !! j)) /\
  (channel_open st = false -> sockets asked = sockets st) /\
  (forall (later : State) (j : nat) (data : gmap string JsValue),
      is_Some (sockets later !! j) ->
      data !! "type" = Some (JsString "delete") ->
      data !! "deviceId" = Some id ->
      let confirmed := step later (SocketMessage j (ParsedObject data)) in
      ((id ∉ ids (devices confirmed)) /\
       forall d, d ∈ devices later -> deviceId d <> id -> d ∈ devices confirmed)) /\
  (forall (later : State) (e : Event),
      id ∈ ids (devices later) -> id ∉ ids (devices (step later e)) ->
      exists j data, e = SocketMessage j (ParsedObject data) /\
                     prop data "type" = JsString "delete" /\
                     prop data "deviceId" = id).
Proof.
  intros Hid. simpl.
  assert (Hasked : confirmDelete (handleDeleteClick id st)
                   = setDeviceToDelete JsNull
                       (deleteDevice id (handleDeleteClick id st))).
  { unfold confirmDelete. simpl. by rewrite Hid. }
  rewrite Hasked. split; [|split; [done|split; [|split; [|split]]]].
  - simpl. by rewrite devices_deleteDevice.
  - intros i ws Hi Hws Ho. simpl.
    rewrite (deleteDevice_open id (handleDeleteClick id st) i ws) by done.
    simpl.
    assert (Hlt : i < length (sockets st)) by (by eapply lookup_lt_Some).
    split; [by rewrite list_lookup_insert_eq|].
    destruct (delete_frame_fields id) as (Ft & Fd & Fo).
    exists (delete_frame id). split; [done|]. split; [done|]. split; [done|].
    split.
    + rewrite list_lookup_insert_eq by done. unfold push_sent. by rewrite Ho.
    + intros j Hj. by apply list_lookup_insert_ne.
  - intros Hclosed. simpl. unfold deleteDevice.
    assert (Hc : channel_open (handleDeleteClick id st) = false) by done.
    by rewrite Hc.
  - intros later j data [ws Hws] Hty' Hdid'. simpl. rewrite Hws.
    assert (Hty : prop data "type" = JsString "delete")
      by (unfold prop; by rewrite Hty').
    assert (Hdid : prop data "deviceId" = id)
      by (unfold prop; by rewrite Hdid').
    unfold onmessage. rewrite Hty. simpl. split.
    + rewrite ids_onmessage_delete, elem_of_filter_ids, Hdid. tauto.
    + intros d Hd Hne. unfold onmessage_delete. rewrite Hdid.
      apply list_elem_of_In, List.filter_In. split; [by apply list_elem_of_In|].
      apply negb_true_iff. destruct (strict_eq (deviceId d) id) eqn:E; [|done].
      by apply strict_eq_true in E.
  - intros later e. apply id_vanishes_only_by_delete.
Qed.

Lemma delete_is_server_confirmed_witness :
  let asked := confirmDelete (handleDeleteClick (JsString "A") (online [lamp; strip])) in
  truthy (JsString "A") = true /\
  devices asked = [lamp; strip] /\
  (exists frame : gmap string JsValue,
     frame !! "type" = Some (JsString "delete") /\
     frame !! "deviceId" = Some (JsString "A") /\
     sockets asked !! 0
     = Some {| readyState := OPEN; sent := [frame]; scope := first_render |}) /\
  devices (step asked (SocketMessage 0 (ParsedObject (delete_frame (JsString "A")))))
  = [strip].
Proof.
  split; [reflexivity|].
  destruct (delete_is_server_confirmed (JsString "A") (online [lamp; strip]) eq_refl)
    as (Hd & _ & Hsend & _).
  split; [exact Hd|]. split; [|reflexivity].
  destruct (Hsend 0 {| readyState := OPEN; sent := []; scope := first_render |}
              eq_refl eq_refl eq_refl) as (_ & frame & Ft & Fd & _ & Hs & _).
  exists frame. split; [exact Ft|]. split; [exact Fd | exact Hs].
Defined.


(** * Further properties *)

(** ** Frames applied to the registry *)

Lemma map_if_none (c : EspDevice -> bool) (f : EspDevice -> EspDevice)
    (devs : list EspDevice) :
  (forall d, d ∈ devs -> c d = false) ->
  List.map (fun d => if c d then f d else d) devs = devs.
Proof.
  induction devs as [|d devs IH]; intros Hc; simpl; [done|].
  rewrite (Hc d) by apply list_elem_of_here.
  f_equal. apply IH. intros d' Hd'. apply Hc. by apply list_elem_of_further.
Qed.

Lemma strict_eq_absent (v : JsValue) (devs : list EspDevice) :
  v ∉ ids devs -> forall d, d ∈ devs -> strict_eq (deviceId d) v = false.
Proof.
  intros Hv d Hd. destruct (strict_eq (deviceId d) v) eqn:E; [|done].
  apply strict_eq_true in E. exfalso. apply Hv. unfold ids.
  apply list_elem_of_fmap. by exists d.
Qed.

(** X1.  Applying the same update frame twice gives the same registry as
    applying it once, whether or not the device was known. *)
Theorem upsert_idempotent (data : gmap string JsValue) (devs : list EspDevice) :
  onmessage_upsert data (onmessage_upsert data devs) = onmessage_upsert data devs.
Proof.
  destruct (decide (prop data "deviceId" ∈ ids devs)) as [Hin|Hout].
  - rewrite (onmessage_upsert_known data devs Hin).
    rewrite onmessage_upsert_known by (by rewrite ids_map_if).
    rewrite List.map_map. apply List.map_ext. intros d.
    destruct (strict_eq (deviceId d) (prop data "deviceId")) eqn:E; simpl; by rewrite E.
  - rewrite (onmessage_upsert_fresh data devs Hout).
    rewrite onmessage_upsert_known.
    + rewrite List.map_app. simpl. rewrite strict_eq_refl.
      rewrite map_if_none by (by apply strict_eq_absent). done.
    + unfold ids. rewrite List.map_app. apply elem_of_app. right. simpl.
      apply list_elem_of_here.
Qed.

(** X2.  After an update frame the frame's identifier is in the registry,
    and every record with that identifier carries the frame's [lightOn] and
    [rgbmode]: for these two fields the last frame wins. *)
Theorem upsert_then_lookup (data : gmap string JsValue) (devs : list EspDevice) :
  let devs' := onmessage_upsert data devs in
  prop data "deviceId" ∈ ids devs' /\
  forall d, d ∈ devs' -> deviceId d = prop data "deviceId" ->
            lightOn d = prop data "lightOn" /\ rgbMode d = prop data "rgbmode".
Proof.
  simpl. split.
  - rewrite ids_onmessage_upsert. case_bool_decide; [done|].
    apply elem_of_app. right. apply list_elem_of_here.
  - intros d Hd Hid.
    destruct (decide (prop data "deviceId" ∈ ids devs)) as [Hin|Hout].
    + rewrite onmessage_upsert_known in Hd by done.
      apply list_elem_of_fmap in Hd as (d0 & -> & _).
      destruct (strict_eq (deviceId d0) (prop data "deviceId")) eqn:E; [done|].
      apply strict_eq_true in Hid. congruence.
    + rewrite onmessage_upsert_fresh in Hd by done.
      apply elem_of_app in Hd as [Hd|Hd].
      * exfalso. apply Hout. unfold ids. apply list_elem_of_fmap. by exists d.
      * apply list_elem_of_singleton in Hd. by subst.
Qed.

Lemma filter_absent (v : JsValue) (devs : list EspDevice) :
  v ∉ ids devs ->
  List.filter (fun d => negb (strict_eq (deviceId d) v)) devs = devs.
Proof.
  intros Hout. induction devs as [|d devs IH]; simpl; [done|].
  rewrite (strict_eq_absent _ (d :: devs) Hout d) by apply list_elem_of_here.
  simpl. f_equal. apply IH. intros Hin. apply Hout. unfold ids in *. simpl.
  by apply list_elem_of_further.
Qed.

(** X3.  A delete frame for an identifier the registry does not hold
    changes nothing. *)
Theorem delete_absent_is_noop (data : gmap string JsValue) (devs : list EspDevice) :
  prop data "deviceId" ∉ ids devs -> onmessage_delete data devs = devs.
Proof. apply filter_absent. Qed.

Lemma delete_absent_is_noop_witness :
  (prop (delete_frame (JsString "Z")) "deviceId" ∉ ids [lamp; strip]) /\
  onmessage_delete (delete_frame (JsString "Z")) [lamp; strip] = [lamp; strip].
Proof.
  assert (H : prop (delete_frame (JsString "Z")) "deviceId" ∉ ids [lamp; strip]).
  { intros Hin. apply existsb_ids in Hin. vm_compute in Hin. discriminate. }
  split; [exact H|]. exact (delete_absent_is_noop _ _ H).
Defined.

Lemma filter_map_if (v : JsValue) (f : EspDevice -> EspDevice) (devs : list EspDevice) :
  (forall d, deviceId (f d) = deviceId d) ->
  List.filter (fun d => negb (strict_eq (deviceId d) v))
    (List.map (fun d => if strict_eq (deviceId d) v then f d else d) devs)
  = List.filter (fun d => negb (strict_eq (deviceId d) v)) devs.
Proof.
  intros Hf. induction devs as [|d devs IH]; simpl; [done|].
  destruct (strict_eq (deviceId d) v) eqn:E; simpl.
  - rewrite Hf, E. simpl. apply IH.
  - rewrite E. simpl. by rewrite IH.
Qed.

(** X4.  An update frame followed by a delete frame for the same identifier
    leaves what the delete frame alone would have left. *)
Theorem upsert_then_delete (data data' : gmap string JsValue) (devs : list EspDevice) :
  prop data' "deviceId" = prop data "deviceId" ->
  onmessage_delete data' (onmessage_upsert data devs) = onmessage_delete data' devs.
Proof.
  intros Hsame. unfold onmessage_delete. rewrite Hsame.
  destruct (decide (prop data "deviceId" ∈ ids devs)) as [Hin|Hout].
  - rewrite onmessage_upsert_known by done. by apply filter_map_if.
  - rewrite onmessage_upsert_fresh by done.
    rewrite List.filter_app. simpl. rewrite strict_eq_refl. simpl.
    by rewrite app_nil_r.
Qed.

Lemma upsert_then_delete_witness :
  let data : gmap string JsValue :=
    {[ "deviceId" := JsString "A"; "lightOn" := JsBool true ]} in
  prop (delete_frame (JsString "A")) "deviceId" = prop data "deviceId" /\
  onmessage_delete (delete_frame (JsString "A"))
    (onmessage_upsert data [lamp; strip])
  = onmessage_delete (delete_frame (JsString "A")) [lamp; strip].
Proof.
  split; [reflexivity|].
  apply (upsert_then_delete
           {[ "deviceId" := JsString "A"; "lightOn" := JsBool true ]}
           (delete_frame (JsString "A")) [lamp; strip]).
  reflexivity.
Defined.

Lemma length_filter_unique (v : JsValue) (devs : list EspDevice) :
  NoDup (ids devs) ->
  length (List.filter (fun d => negb (strict_eq (deviceId d) v)) devs)
  + (if bool_decide (v ∈ ids devs) then 1 else 0)
  = length devs.
Proof.
  unfold ids. induction devs as [|d devs IH]; simpl; intros Hnd.
  - done.
  - apply NoDup_cons in Hnd as [Hd Hnd].
    destruct (strict_eq (deviceId d) v) eqn:E; simpl.
    + apply strict_eq_true in E. subst v.
      rewrite bool_decide_eq_true_2 by apply list_elem_of_here.
      rewrite filter_absent by done. lia.
    + rewrite <- (IH Hnd).
      assert (Hne : deviceId d <> v).
      { intros Heq. rewrite Heq, strict_eq_refl in E. discriminate. }
      assert (Hb : bool_decide (v ∈ deviceId d :: List.map deviceId devs)
                   = bool_decide (v ∈ List.map deviceId devs))
        by (apply bool_decide_ext; rewrite elem_of_cons; split;
            [intros [Heq|Hin]; [congruence|done] | by right]).
      rewrite Hb. lia.
Qed.

Lemma sample_unique : unique_ids [lamp; strip].
Proof.
  unfold unique_ids. simpl. apply NoDup_cons. split; [|apply NoDup_singleton].
  intros Hin. apply list_elem_of_singleton in Hin. discriminate.
Defined.

(** X5.  In a registry with unique identifiers a frame changes the number
    of records by at most one: an update frame adds one record exactly when
    its identifier is new, a delete frame removes one exactly when its
    identifier is present. *)
Theorem frame_changes_size_by_one (data : gmap string JsValue)
    (devs : list EspDevice) :
  unique_ids devs ->
  let known := bool_decide (prop data "deviceId" ∈ ids devs) in
  length (onmessage_upsert data devs)
  = length devs + (if known then 0 else 1) /\
  length (onmessage_delete data devs) + (if known then 1 else 0)
  = length devs.
Proof.
  intros Hu. simpl. split.
  - case_bool_decide as Hin.
    + rewrite onmessage_upsert_known by done. rewrite List.length_map. lia.
    + rewrite onmessage_upsert_fresh by done. by rewrite length_app.
  - by apply length_filter_unique.
Qed.

Lemma frame_changes_size_by_one_witness :
  unique_ids [lamp; strip] /\
  length (onmessage_upsert {[ "deviceId" := JsString "C" ]} [lamp; strip]) = 3 /\
  length (onmessage_delete (delete_frame (JsString "A")) [lamp; strip]) = 1.
Proof.
  split; [exact sample_unique|]. split.
  - exact (proj1 (frame_changes_size_by_one {[ "deviceId" := JsString "C" ]}
                    [lamp; strip] sample_unique)).
  - pose proof (proj2 (frame_changes_size_by_one (delete_frame (JsString "A"))
                         [lamp; strip] sample_unique)) as H.
    vm_compute in H. vm_compute. congruence.
Defined.


(** ** The channel's life cycle *)


Lemma channel_open_cleanup (st : State) : channel_open (cleanup st) = false.
Proof.
  unfold cleanup. destruct (channel_open st) eqn:E; [|done].
  apply channel_open_spec in E as (i & ws & Hi & Hws & Ho).
  rewrite Hi, Hws. unfold channel_open, current_socket. simpl. rewrite Hi. simpl.
  rewrite list_lookup_insert_eq by (by eapply lookup_lt_Some). done.
Qed.

(** X7.  Immediately after the effect's cleanup the channel is not open: a
    [deleteDevice] called in that state sends nothing and records
    "WebSocket is not connected".  The cleanup only moves an open current
    socket to [CLOSING]; it leaves the pending timers and the registry
    alone, and does nothing at all when the current socket is not open. *)
Theorem cleanup_closes_channel (id : JsValue) (st : State) :
  let st' := cleanup st in
  channel_open st' = false /\
  timers st' = timers st /\ devices st' = devices st /\
  length (sockets st') = length (sockets st) /\
  (forall i ws, wsRef st = Some i -> sockets st !! i = Some ws -> readyState ws = OPEN ->
                sockets st' = <[i := set_readyState CLOSING ws]> (sockets st)) /\
  (channel_open st = false -> st' = st) /\
  sockets (deleteDevice id st') = sockets st' /\
  wsErrorMessage (deleteDevice id st') = Some "WebSocket is not connected".
Proof.
  simpl. split; [apply channel_open_cleanup|].
  assert (Hdel : deleteDevice id (cleanup st)
                 = setWsErrorMessage (Some "WebSocket is not connected") (cleanup st)).
  { unfold deleteDevice. by rewrite channel_open_cleanup. }
  rewrite Hdel. unfold cleanup.
  destruct (channel_open st) eqn:E.
  - apply channel_open_spec in E as (i & ws & Hi & Hws & Ho).
    rewrite Hi, Hws. simpl. rewrite length_insert. repeat split; try done.
    intros i' ws' Hi' Hws' _. congruence.
  - repeat split; try done. intros i ws Hi Hws Ho.
    assert (channel_open st = true) by (apply channel_open_spec; eauto). congruence.
Qed.

(** X9.  No event of the channel reaches the dashboard's own state: the
    displayed error message, the notifications raised, the commands
    published and the pending delete dialogue are unchanged by every
    event.  (The hook records its errors in its own cell.) *)
Theorem channel_never_reaches_dashboard (st : State) (e : Event) :
  let st' := step st e in
  errorMessage st' = errorMessage st /\
  notifications st' = notifications st /\
  published st' = published st /\
  deviceToDelete st' = deviceToDelete st.
Proof.
  destruct e as [| |i|i p|i|i|]; simpl.
  - done.
  - unfold cleanup. destruct (channel_open st); [|done].
    destruct (wsRef st) as [i|]; [|done]. by destruct (sockets st !! i).
  - by destruct (sockets st !! i).
  - destruct (sockets st !! i); [|done].
    destruct p as [| |data]; try done. simpl.
    destruct (strict_eq _ _); [done|]. by destruct (strict_eq _ _).
  - by destruct (sockets st !! i).
  - by destruct (sockets st !! i).
  - destruct (timers st) as [|r rest]; [done|]. unfold reconnect.
    destruct (_ && _); [|done]. unfold connectWebSocket.
    by destruct (_ <=? _)%nat.
Qed.


(** ** The toggles, continued *)

(** X10.  When every publish succeeds, [handleToggleLight] issues: with
    the light on, the single publish "off"; with the light off and colour
    mode on, "on" followed by "offRGB"; with both off, the single publish
    "on".  It raises no notification and leaves the displayed error as it
    was. *)
Theorem toggle_light_publishes (device : EspDevice) (sc : Script) (st : State) :
  (forall k, fulfilled (sc k) = true) ->
  let st' := invoke (handleToggleLight device) sc st in
  published st' =
  published st ++
  (if truthy (lightOn device) then [("off", commandTopic device)]
   else if truthy (rgbMode device)
        then [("on", commandTopic device); ("offRGB", commandTopic device)]
        else [("on", commandTopic device)]) /\
  notifications st' = notifications st /\
  errorMessage st' = errorMessage st.
Proof.
  intros Hok. unfold_async. rewrite !Hok. simpl.
  destruct (truthy (lightOn device)); simpl; [done|].
  destruct (truthy (rgbMode device)); simpl; [|done].
  rewrite Hok. simpl. by rewrite <- app_assoc.
Qed.

Lemma toggle_light_publishes_witness :
  (forall k, fulfilled (calm k) = true) /\
  published (invoke (handleToggleLight (set_rgbMode (JsBool true) lamp)) calm
               (online [lamp]))
  = [("on", JsString "t/A"); ("offRGB", JsString "t/A")].
Proof.
  split; [intros k; reflexivity|].
  exact (proj1 (toggle_light_publishes (set_rgbMode (JsBool true) lamp) calm
                  (online [lamp]) (fun k => eq_refl))).
Defined.

(** X11.  When the first publish of a light toggle fails, nothing more is
    published: the follow-up "offRGB" is never issued after a failure. *)
Theorem failed_publish_stops_toggle (device : EspDevice) (sc : Script) (st : State) :
  fulfilled (sc 0) = false ->
  published (invoke (handleToggleLight device) sc st) =
  published st ++
  [(if truthy (lightOn device) then "off" else "on", commandTopic device)].
Proof.
  intros Hfail. unfold_async. rewrite Hfail. simpl. done.
Qed.

Lemma failed_publish_stops_toggle_witness :
  fulfilled (rejecting 0 0) = false /\
  published (invoke (handleToggleLight (set_rgbMode (JsBool true) lamp))
               (rejecting 0) (online [lamp]))
  = [("on", JsString "t/A")].
Proof.
  split; [reflexivity|].
  exact (failed_publish_stops_toggle (set_rgbMode (JsBool true) lamp)
           (rejecting 0) (online [lamp]) eq_refl).
Defined.

Lemma rollback_restores_rgbMode (device d : EspDevice) (devs : list EspDevice) :
  d ∈ toggleRGB_rollback device devs ->
  strict_eq (deviceId d) (deviceId device) = true ->
  rgbMode d = rgbMode device.
Proof.
  unfold toggleRGB_rollback. intros Hin Heq.
  apply list_elem_of_fmap in Hin as (d0 & -> & _).
  destruct (strict_eq (deviceId d0) (deviceId device)) eqn:E; [done|].
  congruence.
Qed.

(** X12.  When a publish of a colour-mode toggle fails (the first, or the
    "off" that follows when colour mode is being enabled with the light
    on), every record with the device's identifier ends with the [rgbMode]
    of the record the handler was invoked with, whatever happened to the
    registry meanwhile, and exactly one notification, "Failed to toggle RGB
    mode", is raised.  If it is the first publish that fails, it is the only
    one issued. *)
Theorem toggle_rgb_rollback (device : EspDevice) (sc : Script) (st : State) :
  fulfilled (sc 1) = false \/
  (truthy (rgbMode device) = false /\ truthy (lightOn device) = true /\
   fulfilled (sc 2) = false) ->
  let st' := invoke (handleToggleRGB device) sc st in
  (forall d, d ∈ devices st' ->
             strict_eq (deviceId d) (deviceId device) = true ->
             rgbMode d = rgbMode device) /\
  notifications st' = notifications st ++ ["Failed to toggle RGB mode"] /\
  errorMessage st' = Some "Failed to toggle RGB mode" /\
  (fulfilled (sc 1) = false ->
   published st' =
   published st ++
   [(if truthy (rgbMode device) then "offRGB" else "onRGB", commandTopic device)]).
Proof.
  intros Hfail. simpl.
  assert (Hinv : exists mid,
             devices (invoke (handleToggleRGB device) sc st)
             = toggleRGB_rollback device mid
             /\ notifications (invoke (handleToggleRGB device) sc st)
                = notifications st ++ ["Failed to toggle RGB mode"]
             /\ errorMessage (invoke (handleToggleRGB device) sc st)
                = Some "Failed to toggle RGB mode"
             /\ (fulfilled (sc 1) = false ->
                 published (invoke (handleToggleRGB device) sc st) =
                 published st ++
                 [(if truthy (rgbMode device) then "offRGB" else "onRGB",
                   commandTopic device)])).
  { unfold_async.
    destruct (fulfilled (sc 1)) eqn:E1; simpl.
    - destruct Hfail as [|(Hrgb & Hl & E2)]; [done|]. rewrite Hrgb, Hl. simpl.
      rewrite E2. simpl. eexists. repeat split; done.
    - eexists. repeat split; done. }
  destruct Hinv as (mid & Hd & Hn & He & Hp).
  split; [|done].
  intros d Hin Hid. rewrite Hd in Hin. by eapply rollback_restores_rgbMode.
Qed.

Lemma toggle_rgb_rollback_witness :
  let st' := invoke (handleToggleRGB strip) (rejecting 1) (online [strip]) in
  fulfilled (rejecting 1 1) = false /\
  notifications st' = ["Failed to toggle RGB mode"] /\
  errorMessage st' = Some "Failed to toggle RGB mode".
Proof.
  split; [reflexivity|].
  destruct (toggle_rgb_rollback strip (rejecting 1) (online [strip])
              (or_introl eq_refl)) as (_ & Hn & He & _).
  split; [exact Hn | exact He].
Defined.

Lemma devices_handleToggleRGB_quiet (device : EspDevice) (sc : Script)
    (st : State) :
  quiet sc ->
  devices (invoke (handleToggleRGB device) sc st)
  = toggleRGB_optimistic device (devices st).
Proof.
  intros Hq. unfold_async.
  destruct (Hq 0) as [F0 A0]. destruct (Hq 1) as [F1 A1]. destruct (Hq 2) as [F2 A2].
  rewrite F1. simpl.
  destruct (negb (truthy (rgbMode device)) && truthy (lightOn device)); simpl.
  - rewrite F2. simpl. by rewrite A2, A1, A0.
  - by rewrite A1, A0.
Qed.

(** X13.  After an undisturbed click on either toggle, the record of the
    clicked card never has both the light and colour mode on, whatever it
    held before. *)
Theorem toggles_make_modes_exclusive (i : nat) (d : EspDevice) (sc : Script)
    (st : State) :
  devices st !! i = Some d ->
  quiet sc ->
  (exists d', devices (clickToggleLight i sc st) !! i = Some d' /\
              truthy (lightOn d') && truthy (rgbMode d') = false) /\
  (exists d', devices (clickToggleRGB i sc st) !! i = Some d' /\
              truthy (lightOn d') && truthy (rgbMode d') = false).
Proof.
  intros Hi Hq. unfold clickToggleLight, clickToggleRGB. rewrite Hi.
  rewrite devices_handleToggleLight_quiet, devices_handleToggleRGB_quiet by done.
  unfold toggleLight_optimistic, toggleRGB_optimistic.
  rewrite !lookup_map_if, Hi. simpl. rewrite strict_eq_refl. simpl.
  split; eexists; (split; [reflexivity|]); simpl.
  - destruct (truthy (lightOn d)); simpl; [done|]. done.
  - destruct (truthy (rgbMode d)); simpl; [|done]. apply andb_false_r.
Qed.

Lemma toggles_make_modes_exclusive_witness :
  devices (online [lamp; strip]) !! 1 = Some strip /\
  quiet calm /\
  exists d', devices (clickToggleRGB 1 calm (online [lamp; strip])) !! 1 = Some d' /\
             truthy (lightOn d') && truthy (rgbMode d') = false.
Proof.
  split; [reflexivity|]. split; [exact quiet_calm|].
  exact (proj2 (toggles_make_modes_exclusive 1 strip calm (online [lamp; strip])
                  eq_refl quiet_calm)).
Defined.

(** X15.  The mirror image of the light's round trip: for a record whose
    [rgbMode] is a boolean, two successive undisturbed colour-mode toggles
    restore [rgbMode] and leave [lightOn] false; the other fields are
    untouched. *)
Theorem toggle_rgb_twice (i : nat) (d : EspDevice) (b : bool)
    (sc1 sc2 : Script) (st : State) :
  devices st !! i = Some d ->
  rgbMode d = JsBool b ->
  quiet sc1 -> quiet sc2 ->
  let st' := clickToggleRGB i sc2 (clickToggleRGB i sc1 st) in
  exists d',
    devices st' !! i = Some d' /\
    rgbMode d' = rgbMode d /\
    lightOn d' = JsBool false /\
    deviceId d' = deviceId d /\ name d' = name d /\
    commandTopic d' = commandTopic d.
Proof.
  intros Hi Hb Hq1 Hq2. simpl.
  unfold clickToggleRGB at 2. rewrite Hi.
  set (st1 := invoke (handleToggleRGB d) sc1 st).
  assert (H1 : devices st1 = toggleRGB_optimistic d (devices st))
    by by apply devices_handleToggleRGB_quiet.
  set (d1 := set_lightOn (if truthy (rgbMode d) then lightOn d else JsBool false)
               (set_rgbMode (js_not (rgbMode d)) d)).
  assert (Hi1 : devices st1 !! i = Some d1).
  { rewrite H1. unfold toggleRGB_optimistic. rewrite lookup_map_if, Hi. simpl.
    by rewrite strict_eq_refl. }
  unfold clickToggleRGB. rewrite Hi1.
  rewrite devices_handleToggleRGB_quiet by done.
  unfold toggleRGB_optimistic at 1. rewrite lookup_map_if, Hi1. simpl.
  rewrite strict_eq_refl. eexists. split; [reflexivity|].
  rewrite Hb. destruct b; simpl; repeat split; try done.
Qed.

Lemma toggle_rgb_twice_witness :
  let st' := clickToggleRGB 1 calm (clickToggleRGB 1 calm (online [lamp; strip])) in
  devices (online [lamp; strip]) !! 1 = Some strip /\
  rgbMode strip = JsBool true /\
  exists d', devices st' !! 1 = Some d' /\ rgbMode d' = rgbMode strip /\
             lightOn d' = JsBool false.
Proof.
  split; [reflexivity|]. split; [reflexivity|].
  destruct (toggle_rgb_twice 1 strip true calm calm (online [lamp; strip])
              eq_refl eq_refl quiet_calm quiet_calm) as (d' & H1 & H2 & H3 & _).
  exists d'. repeat split; assumption.
Defined.


(** What a complete invocation leaves in the registry when nothing else
    writes to it: the optimistic update, rolled back or not. *)
Lemma devices_handleToggleLight_cases (device : EspDevice) (sc : Script) (st : State) :
  (forall k devs, arrived (sc k) devs = devs) ->
  devices (invoke (handleToggleLight device) sc st)
  = toggleLight_optimistic device (devices st) \/
  devices (invoke (handleToggleLight device) sc st)
  = toggleLight_rollback device (toggleLight_optimistic device (devices st)).
Proof.
  intros Ha. unfold_async.
  destruct (fulfilled (sc 0)); simpl.
  - destruct (negb (truthy (lightOn device)) && truthy (rgbMode device)); simpl.
    + destruct (fulfilled (sc 1)); simpl; rewrite !Ha; auto.
    + rewrite Ha. auto.
  - rewrite Ha. auto.
Qed.

Lemma devices_handleToggleRGB_cases (device : EspDevice) (sc : Script) (st : State) :
  (forall k devs, arrived (sc k) devs = devs) ->
  devices (invoke (handleToggleRGB device) sc st)
  = toggleRGB_optimistic device (devices st) \/
  devices (invoke (handleToggleRGB device) sc st)
  = toggleRGB_rollback device (toggleRGB_optimistic device (devices st)).
Proof.
  intros Ha. unfold_async.
  destruct (fulfilled (sc 1)); simpl.
  - destruct (negb (truthy (rgbMode device)) && truthy (lightOn device)); simpl.
    + destruct (fulfilled (sc 2)); simpl; rewrite !Ha; auto.
    + rewrite !Ha. auto.
  - rewrite !Ha. auto.
Qed.

Lemma lookup_map_if_other (v : JsValue) (f : EspDevice -> EspDevice)
    (devs : list EspDevice) (i : nat) (d : EspDevice) :
  devs !! i = Some d -> deviceId d <> v ->
  List.map (fun d => if strict_eq (deviceId d) v then f d else d) devs !! i = Some d.
Proof.
  intros Hi Hne. rewrite lookup_map_if, Hi. simpl.
  destruct (strict_eq (deviceId d) v) eqn:E; [|done].
  by apply strict_eq_true in E.
Qed.

(** X14.  A complete invocation of either toggle, successful or not, that
    nothing else interferes with keeps the identifiers of the registry as
    they are and leaves every record with another identifier untouched. *)
Theorem toggles_touch_only_their_device (device : EspDevice) (sc : Script)
    (st : State) :
  (forall k devs, arrived (sc k) devs = devs) ->
  (ids (devices (invoke (handleToggleLight device) sc st)) = ids (devices st) /\
   forall i d, devices st !! i = Some d -> deviceId d <> deviceId device ->
               devices (invoke (handleToggleLight device) sc st) !! i = Some d) /\
  (ids (devices (invoke (handleToggleRGB device) sc st)) = ids (devices st) /\
   forall i d, devices st !! i = Some d -> deviceId d <> deviceId device ->
               devices (invoke (handleToggleRGB device) sc st) !! i = Some d).
Proof.
  intros Ha. split.
  - destruct (devices_handleToggleLight_cases device sc st Ha) as [-> | ->].
    + split; [apply ids_toggleLight_optimistic|].
      intros i d Hi Hne. by apply lookup_map_if_other.
    + split; [by rewrite ids_toggleLight_rollback, ids_toggleLight_optimistic|].
      intros i d Hi Hne. apply lookup_map_if_other; [|done].
      by apply lookup_map_if_other.
  - destruct (devices_handleToggleRGB_cases device sc st Ha) as [-> | ->].
    + split; [apply ids_toggleRGB_optimistic|].
      intros i d Hi Hne. by apply lookup_map_if_other.
    + split; [by rewrite ids_toggleRGB_rollback, ids_toggleRGB_optimistic|].
      intros i d Hi Hne. apply lookup_map_if_other; [|done].
      by apply lookup_map_if_other.
Qed.

Lemma toggles_touch_only_their_device_witness :
  (forall k devs, arrived (rejecting 0 k) devs = devs) /\
  devices (invoke (handleToggleLight lamp) (rejecting 0) (online [lamp; strip])) !! 1
  = Some strip.
Proof.
  split; [intros k devs; reflexivity|].
  apply (proj2 (proj1 (toggles_touch_only_their_device lamp (rejecting 0)
                         (online [lamp; strip]) (fun k devs => eq_refl)))).
  - reflexivity.
  - discriminate.
Defined.

(** X16.  What a failed light toggle leaves behind when nothing else
    touched the registry: toggling off a light that was on is undone
    completely (the record is as before); toggling on a light that was off
    restores [lightOn] but leaves [rgbMode] false. *)
Theorem failed_toggle_light_net_effect (i : nat) (device : EspDevice) (b : bool)
    (sc : Script) (st : State) :
  devices st !! i = Some device ->
  lightOn device = JsBool b ->
  (forall k devs, arrived (sc k) devs = devs) ->
  fulfilled (sc 0) = false \/
  (b = false /\ truthy (rgbMode device) = true /\ fulfilled (sc 1) = false) ->
  devices (invoke (handleToggleLight device) sc st) !! i
  = Some (if b then device else set_rgbMode (JsBool false) device).
Proof.
  intros Hi Hb Ha Hfail.
  assert (Hd : devices (invoke (handleToggleLight device) sc st)
               = toggleLight_rollback device
                   (toggleLight_optimistic device (devices st))).
  { unfold_async. rewrite Hb.
    destruct (fulfilled (sc 0)) eqn:E0; simpl.
    - destruct Hfail as [|(-> & Hrgb & E1)]; [done|]. simpl. rewrite Hrgb. simpl.
      rewrite E1. simpl. by rewrite !Ha.
    - by rewrite Ha. }
  rewrite Hd. unfold toggleLight_rollback, toggleLight_optimistic.
  rewrite !lookup_map_if, Hi. simpl. rewrite strict_eq_refl. simpl.
  rewrite strict_eq_refl. f_equal. rewrite Hb.
  destruct device as [di nm lo rg ct]. simpl in *. subst lo.
  by destruct b.
Qed.

Lemma failed_toggle_light_net_effect_witness :
  devices (online [lamp; strip]) !! 1 = Some strip /\
  lightOn strip = JsBool true /\
  fulfilled (rejecting 0 0) = false /\
  devices (invoke (handleToggleLight strip) (rejecting 0) (online [lamp; strip])) !! 1
  = Some strip.
Proof.
  split; [reflexivity|]. split; [reflexivity|]. split; [reflexivity|].
  exact (failed_toggle_light_net_effect 1 strip true (rejecting 0)
           (online [lamp; strip]) eq_refl eq_refl (fun k devs => eq_refl)
           (or_introl eq_refl)).
Defined.

(** ** The dashboard, continued *)

(** X17.  Confirming a deletion a second time does nothing: the dialogue is
    closed by the first confirmation, so at most one delete frame is sent
    per dialogue. *)
Theorem confirmDelete_sends_once (st : State) :
  confirmDelete (confirmDelete st) = confirmDelete st.
Proof.
  unfold confirmDelete.
  destruct (truthy (deviceToDelete st)) eqn:E; simpl; [done | by rewrite E].
Qed.

(** X18.  Deleting while the channel is not open fails silently for the
    user: the dialogue closes, nothing is sent, the registry is unchanged,
    and the dashboard's displayed error and notifications are unchanged -
    the failure goes to the hook's own error message only. *)
Theorem delete_while_disconnected_is_silent (id : JsValue) (st : State) :
  truthy id = true ->
  channel_open st = false ->
  let st' := confirmDelete (handleDeleteClick id st) in
  errorMessage st' = errorMessage st /\
  notifications st' = notifications st /\
  sockets st' = sockets st /\
  devices st' = devices st /\
  deviceToDelete st' = JsNull /\
  wsErrorMessage st' = Some "WebSocket is not connected".
Proof.
  intros Hid Hclosed. simpl. unfold confirmDelete. simpl. rewrite Hid.
  unfold deleteDevice.
  assert (Hc : channel_open (handleDeleteClick id st) = false) by done.
  by rewrite Hc.
Qed.

Lemma delete_while_disconnected_is_silent_witness :
  let st := setDevices (fun _ => [lamp]) (run initial [Mount]) in
  let st' := confirmDelete (handleDeleteClick (JsString "A") st) in
  truthy (JsString "A") = true /\ channel_open st = false /\
  errorMessage st' = None /\ notifications st' = [] /\
  wsErrorMessage st' = Some "WebSocket is not connected".
Proof.
  split; [reflexivity|]. split; [reflexivity|].
  destruct (delete_while_disconnected_is_silent (JsString "A")
              (setDevices (fun _ => [lamp]) (run initial [Mount]))
              eq_refl eq_refl) as (He & Hn & _ & _ & _ & Hw).
  split; [exact He|]. split; [exact Hn | exact Hw].
Defined.

Lemma run_keeps_unique_ids (es : list Event) :
  forall st, unique_ids (devices st) -> unique_ids (devices (run st es)).
Proof.
  induction es as [|e es IH]; intros st Hu; [done|].
  simpl. apply IH. by apply step_keeps_unique_ids.
Qed.

(** X19.  When the list the relay returns has unique identifiers, the
    registry seeded from it (by the mount effect or by the refresh button)
    has unique identifiers after every sequence of channel events. *)
Theorem fetched_unique_ids_stay_unique (data : list EspDevice) (es : list Event)
    (st : State) :
  unique_ids data ->
  devices (mount_fetch (Some data) st) = data /\
  unique_ids (devices (run (mount_fetch (Some data) st) es)) /\
  unique_ids (devices (run (refresh_fetch (Some data) st) es)).
Proof.
  intros Hu. split; [done|]. split; by apply run_keeps_unique_ids.
Qed.

Lemma fetched_unique_ids_stay_unique_witness :
  let es := [Mount; SocketOpen 0;
             SocketMessage 0 (ParsedObject {[ "deviceId" := JsString "C" ]});
             SocketMessage 0 (ParsedObject {[ "deviceId" := JsString "C" ]})] in
  unique_ids [lamp; strip] /\
  unique_ids (devices (run (mount_fetch (Some [lamp; strip]) initial) es)).
Proof.
  split; [exact sample_unique|].
  exact (proj1 (proj2 (fetched_unique_ids_stay_unique [lamp; strip] _ initial
                         sample_unique))).
Defined.

(** ** Earlier revisions *)

(** X20.  In the first revision a failed publish leaves the registry
    untouched (there is nothing to roll back): the handler writes nothing,
    raises exactly one notification and has issued the one publish. *)
Theorem first_revision_toggle_failure (device : EspDevice) (sc : Script) (st : State) :
  fulfilled (sc 0) = false ->
  (forall devs, arrived (sc 0) devs = devs) ->
  let st' := invoke (MqttDashboard.handleToggleLight device) sc st in
  devices st' = devices st /\
  notifications st' = notifications st ++ ["Failed to toggle light"] /\
  errorMessage st' = Some "Failed to toggle light" /\
  published st' =
  published st ++
  [(if truthy (lightOn device) then "off" else "on", commandTopic device)].
Proof.
  intros Hfail Ha. unfold MqttDashboard.handleToggleLight. unfold_async.
  rewrite Hfail. simpl. by rewrite Ha.
Qed.

Lemma first_revision_toggle_failure_witness :
  let st' := invoke (MqttDashboard.handleToggleLight lamp) (rejecting 0)
               (online [lamp]) in
  fulfilled (rejecting 0 0) = false /\
  (forall devs, arrived (rejecting 0 0) devs = devs) /\
  devices st' = [lamp] /\ notifications st' = ["Failed to toggle light"].
Proof.
  split; [reflexivity|]. split; [intros devs; reflexivity|].
  destruct (first_revision_toggle_failure lamp (rejecting 0) (online [lamp])
              eq_refl (fun devs => eq_refl)) as (Hd & Hn & _).
  split; [exact Hd | exact Hn].
Defined.

Lemma first_revision_toggle_quiet (device : EspDevice) (sc : Script) (st : State) :
  quiet sc ->
  devices (invoke (MqttDashboard.handleToggleLight device) sc st)
  = List.map
      (fun d => if strict_eq (deviceId d) (deviceId device)
                then set_lightOn (js_not (lightOn d)) d else d)
      (devices st) /\
  published (invoke (MqttDashboard.handleToggleLight device) sc st)
  = published st ++
    [(if truthy (lightOn device) then "off" else "on", commandTopic device)].
Proof.
  intros Hq. destruct (Hq 0) as [F A].
  unfold MqttDashboard.handleToggleLight. unfold_async.
  rewrite F. simpl. by rewrite A.
Qed.

(** X21.  In the first revision the round trip is exact: for a record
    whose [lightOn] is a boolean, two successive undisturbed toggles of the
    light restore the whole record, [rgbMode] included, having published
    the two opposite commands. *)
Theorem first_revision_toggle_twice (i : nat) (d : EspDevice) (b : bool)
    (sc1 sc2 : Script) (st : State) :
  devices st !! i = Some d ->
  lightOn d = JsBool b ->
  quiet sc1 -> quiet sc2 ->
  let st' := MqttDashboard.clickToggleLight i sc2
               (MqttDashboard.clickToggleLight i sc1 st) in
  devices st' !! i = Some d /\
  published st' =
  published st ++
  [(if b then "off" else "on", commandTopic d);
   (if b then "on" else "off", commandTopic d)].
Proof.
  intros Hi Hb Hq1 Hq2. cbv zeta.
  assert (E1 : MqttDashboard.clickToggleLight i sc1 st
               = invoke (MqttDashboard.handleToggleLight d) sc1 st).
  { unfold MqttDashboard.clickToggleLight. by rewrite Hi. }
  rewrite E1.
  destruct (first_revision_toggle_quiet d sc1 st Hq1) as [D1 P1].
  set (st1 := invoke (MqttDashboard.handleToggleLight d) sc1 st) in *.
  clearbody st1.
  assert (Hi1 : devices st1 !! i = Some (set_lightOn (JsBool (negb b)) d)).
  { rewrite D1, lookup_map_if, Hi. simpl. rewrite strict_eq_refl.
    unfold js_not. by rewrite Hb. }
  unfold MqttDashboard.clickToggleLight. rewrite Hi1.
  destruct (first_revision_toggle_quiet (set_lightOn (JsBool (negb b)) d) sc2 st1 Hq2)
    as [D2 P2].
  rewrite D2, P2, P1. split.
  - rewrite lookup_map_if, Hi1. simpl. rewrite strict_eq_refl. f_equal.
    destruct d as [di nm lo rg ct]. simpl in *. subst lo.
    unfold js_not, set_lightOn. simpl. by rewrite negb_involutive.
  - rewrite <- app_assoc. simpl. rewrite Hb. by destruct b.
Qed.

Lemma first_revision_toggle_twice_witness :
  let d := set_rgbMode (JsBool true) lamp in
  let st' := MqttDashboard.clickToggleLight 0 calm
               (MqttDashboard.clickToggleLight 0 calm (online [d])) in
  devices (online [d]) !! 0 = Some d /\ lightOn d = JsBool false /\
  devices st' !! 0 = Some d.
Proof.
  split; [reflexivity|]. split; [reflexivity|].
  exact (proj1 (first_revision_toggle_twice 0 (set_rgbMode (JsBool true) lamp)
                  false calm calm (online [set_rgbMode (JsBool true) lamp])
                  eq_refl eq_refl quiet_calm quiet_calm)).
Defined.

(** X23.  In the first revision a successful colour-mode toggle flips
    [rgbMode] of the records with the device's identifier and changes
    nothing else: every record keeps its [lightOn], so the two modes are
    not made exclusive there. *)
Theorem first_revision_rgb_keeps_light (device : EspDevice) (sc : Script)
    (st : State) :
  fulfilled (sc 0) = true ->
  (forall devs, arrived (sc 0) devs = devs) ->
  let st' := invoke (MqttDashboard.handleToggleRGB device) sc st in
  notifications st' = notifications st /\
  forall i d, devices st !! i = Some d ->
    exists d', devices st' !! i = Some d' /\
      lightOn d' = lightOn d /\ deviceId d' = deviceId d /\
      name d' = name d /\ commandTopic d' = commandTopic d /\
      rgbMode d' = (if decide (deviceId d = deviceId device)
                    then js_not (rgbMode d) else rgbMode d).
Proof.
  intros Hok Ha. unfold MqttDashboard.handleToggleRGB. unfold_async.
  rewrite Hok. simpl. split; [done|]. intros i d Hi.
  rewrite Ha, lookup_map_if, Hi. simpl. eexists. split; [reflexivity|].
  rewrite strict_eq_decide.
  destruct (decide (deviceId d = deviceId device)) as [E|E].
  - by rewrite bool_decide_eq_true_2.
  - by rewrite bool_decide_eq_false_2.
Qed.

Lemma first_revision_rgb_keeps_light_witness :
  let st' := MqttDashboard.clickToggleRGB 0 calm (online [lamp]) in
  fulfilled (calm 0) = true /\
  (forall devs, arrived (calm 0) devs = devs) /\
  exists d', devices st' !! 0 = Some d' /\ lightOn d' = lightOn lamp /\
             rgbMode d' = JsBool true.
Proof.
  split; [reflexivity|]. split; [intros devs; reflexivity|].
  destruct (proj2 (first_revision_rgb_keeps_light lamp calm (online [lamp])
                     eq_refl (fun devs => eq_refl)) 0 lamp eq_refl)
    as (d' & H1 & H2 & _ & _ & _ & H3).
  exists d'. split; [exact H1|]. split; [exact H2|]. exact H3.
Defined.

(** X22.  The earlier message handler never removes a device: whatever the
    frame - a delete frame included, which it takes for an update - every
    identifier of the registry is still there afterwards. *)
Theorem earlier_hook_never_removes (parsed : Parsed) (st : State) (v : JsValue) :
  v ∈ ids (devices st) ->
  v ∈ ids (devices (EarlierHook.onmessage parsed st)).
Proof.
  intros Hin. destruct parsed as [| |data]; simpl; try done.
  destruct (strict_eq (prop data "type") (JsString "heartbeat")); [done|]. simpl.
  rewrite ids_onmessage_upsert. case_bool_decide; [done|].
  apply elem_of_app. by left.
Qed.

Lemma earlier_hook_never_removes_witness :
  JsString "A" ∈ ids (devices (online [lamp])) /\
  JsString "A" ∈ ids (devices (EarlierHook.onmessage
                                 (ParsedObject (delete_frame (JsString "A")))
                                 (online [lamp]))).
Proof.
  assert (H : JsString "A" ∈ ids (devices (online [lamp])))
    by apply list_elem_of_here.
  split; [exact H|]. exact (earlier_hook_never_removes _ _ _ H).
Defined.
